(** * Battery cell simulation dashboard: the simulation core

    A shallow embedding of the state-update logic of
    [battery_simulation_app.py]: the two registries kept in the Streamlit
    session state ([cells_data], [tasks_data]), the cell and task creation
    handlers, the removal buttons, and [simulate_real_time_data], the pass
    that nudges every cell's voltage and temperature.

    Python floats are IEEE 754 binary64 numbers; they are embedded as Rocq's
    primitive floats, whose operations are specified by the Standard
    Library's [SpecFloat].  Python dictionaries keep insertion order and are
    embedded as association lists with unique keys.  Page rendering, charts
    and CSV formatting are not modelled. *)

From Stdlib Require Import ZArith Floats Lia Bool List String Ascii DecimalString.
From Stdlib Require DecimalNat DecimalFacts.
Import ListNotations.

#[local] Set Warnings "-inexact-float".
#[local] Open Scope Z_scope.

(** ** Python numbers *)

Module PyFloat.

(** [a / q] rounded to the nearest integer, ties to the even one: the
    rounding that the decimal conversion behind Python's [round] applies
    to the exact binary value. *)
Definition rne_div (a q : Z) : Z :=
  let (k, r) := Z.div_eucl a q in
  match 2 * r ?= q with
  | Lt => k
  | Gt => k + 1
  | Eq => if Z.even k then k else k + 1
  end.

(** The integer nearest to [m * 2^e * 10^ndigits]. *)
Definition scaled_round (m : positive) (e : Z) (ndigits : nat) : Z :=
  let n := Zpos m * 10 ^ Z.of_nat ndigits in
  if 0 <=? e then n * 2 ^ e else rne_div n (2 ^ (- e)).

(** The binary64 number nearest to the decimal [(-1)^s * d / 10^ndigits]:
    what reading the decimal string back gives.  Both [d] and the power of
    ten are exact, so it is their correctly rounded quotient. *)
Definition of_decimal (s : bool) (d : positive) (ndigits : nat) : float :=
  SF2Prim (SFdiv prec emax (S754_finite s d 0)
             (S754_finite false (Z.to_pos (10 ^ Z.of_nat ndigits)) 0)).

(** [round(x, ndigits)] for a float [x] and [ndigits >= 0].  CPython prints
    [x] with [ndigits] decimals, correctly rounded (ties to even on the
    exact value), and reads the decimal string back as the nearest
    binary64 number; the sign of [x] is kept, infinities and NaN are
    returned as they are. *)
Definition py_round (x : float) (ndigits : nat) : float :=
  match Prim2SF x with
  | S754_finite s m e =>
      match scaled_round m e ndigits with
      | Zpos d => of_decimal s d ndigits
      | _ => SF2Prim (S754_zero s)
      end
  | _ => x
  end.

(** [float(z)] for a Python int, rounded to nearest (exact for
    [|z| <= 2^53]; where Python raises OverflowError this gives an
    infinity, a case the program's literals never reach). *)
Definition of_int (z : Z) : float :=
  SF2Prim (binary_normalize prec emax z 0 false).

(** [max(a, b)] and [min(a, b)] of two floats: the first argument is kept
    unless the second one compares strictly greater (smaller). *)
Definition max2 (a b : float) : float := if (a <? b)%float then b else a.
Definition min2 (a b : float) : float := if (b <? a)%float then b else a.

(** [lo <= x <= hi] *)
Definition in_range (lo hi x : float) : bool :=
  ((lo <=? x) && (x <=? hi))%float.

(** Every decimal [d / 10^ndigits] with [dlo <= d <= dlo + count] reads
    back as a float within [[lo, hi]]: a finite check, by evaluation. *)
Definition table_ok (lo hi : float) (ndigits : nat) (dlo : positive)
    (count : nat) : bool :=
  forallb (fun i => in_range lo hi (of_decimal false (dlo + Pos.of_nat i) ndigits))
    (seq 1 count)
  && in_range lo hi (of_decimal false dlo ndigits).

End PyFloat.

Module PyNum.
Import PyFloat.

(** A Python number as this program meets them: an [int] or a [float]. *)
Inductive num : Type :=
| NInt (z : Z)
| NFloat (f : float).

Definition to_float (n : num) : float :=
  match n with
  | NInt z => of_int z
  | NFloat f => f
  end.

(** [a < b].  Python compares an int with a float by value; converting the
    int is exact for the small literals this program uses. *)
Definition lt (a b : num) : bool :=
  match a, b with
  | NInt x, NInt y => x <? y
  | _, _ => (to_float a <? to_float b)%float
  end.

Definition le (a b : num) : bool :=
  match a, b with
  | NInt x, NInt y => x <=? y
  | _, _ => (to_float a <=? to_float b)%float
  end.

(** [a + b]: int arithmetic on two ints, float arithmetic otherwise. *)
Definition add (a b : num) : num :=
  match a, b with
  | NInt x, NInt y => NInt (x + y)
  | _, _ => NFloat (to_float a + to_float b)%float
  end.

Definition max2 (a b : num) : num := if lt a b then b else a.
Definition min2 (a b : num) : num := if lt b a then b else a.

(** [round(a, ndigits)] with [ndigits >= 0]: an int is returned as it
    is, a float is rounded to [ndigits] decimals. *)
Definition round (a : num) (ndigits : nat) : num :=
  match a with
  | NInt z => NInt z
  | NFloat f => NFloat (py_round f ndigits)
  end.

Definition in_range (lo hi x : num) : bool := le lo x && le x hi.

End PyNum.

(** ** Python strings and dictionaries *)

Module PyStr.

(** [str.lower()] on the ASCII letters. *)
Definition lower_ascii (c : ascii) : ascii :=
  let n := nat_of_ascii c in
  if ((65 <=? n) && (n <=? 90))%nat then ascii_of_nat (n + 32) else c.

Fixpoint lower (s : string) : string :=
  match s with
  | EmptyString => EmptyString
  | String c rest => String (lower_ascii c) (lower rest)
  end.

(** [str(n)] of a non-negative int. *)
Definition of_nat (n : nat) : string := NilZero.string_of_uint (Nat.to_uint n).

(** Truthiness of a string: only the empty string is falsy. *)
Definition truthy (s : string) : bool :=
  match s with
  | EmptyString => false
  | String _ _ => true
  end.

End PyStr.

Module PyDict.

(** A dictionary with string keys: its items in insertion order. *)
Definition dict (V : Type) : Type := list (string * V).

Section Ops.
Context {V : Type}.

Definition keys (d : dict V) : list string := map fst d.
Definition values (d : dict V) : list V := map snd d.

(** [k in d] *)
Fixpoint mem (k : string) (d : dict V) : bool :=
  match d with
  | [] => false
  | (k', _) :: rest => if String.eqb k k' then true else mem k rest
  end.

(** [d.get(k)] *)
Fixpoint get (k : string) (d : dict V) : option V :=
  match d with
  | [] => None
  | (k', v) :: rest => if String.eqb k k' then Some v else get k rest
  end.

(** [d[k] = v]: an existing key keeps its place, a new one goes last. *)
Fixpoint set (k : string) (v : V) (d : dict V) : dict V :=
  match d with
  | [] => [(k, v)]
  | (k', v') :: rest =>
      if String.eqb k k' then (k', v) :: rest else (k', v') :: set k v rest
  end.

(** [d.update(items)] *)
Definition update (d : dict V) (items : list (string * V)) : dict V :=
  fold_left (fun acc kv => set (fst kv) (snd kv) acc) items d.

(** [del d[k]] for a key of [d] (the program deletes only keys it is
    iterating over). *)
Fixpoint del (k : string) (d : dict V) : dict V :=
  match d with
  | [] => []
  | (k', v') :: rest =>
      if String.eqb k k' then rest else (k', v') :: del k rest
  end.

End Ops.

End PyDict.

(** ** The random source and the clock *)

Module Random.

(** The results of the successive [random.uniform] calls of one pass, in
    call order.  The module is outside the program: the only thing known of
    [random.uniform(a, b)] is that its result [N] satisfies [a <= N <= b]. *)
Definition draws : Type := nat -> float.

(** A computation that consumes draws. *)
Definition Rand (A : Type) : Type := draws -> A * draws.

Definition ret {A : Type} (a : A) : Rand A := fun s => (a, s).

Definition bind {A B : Type} (m : Rand A) (k : A -> Rand B) : Rand B :=
  fun s => let (a, s') := m s in k a s'.

(** [random.uniform(a, b)]: the next draw. *)
Definition uniform (a b : PyNum.num) : Rand float :=
  fun s => (s 0%nat, fun n => s (S n)).

(** The contract of [random.uniform(a, b)] for a draw [u]. *)
Definition honours (a b : PyNum.num) (u : float) : Prop :=
  PyNum.in_range a b (PyNum.NFloat u) = true.

Definition run {A : Type} (m : Rand A) (s : draws) : A := fst (m s).

End Random.

Notation "x <- m ;; k" := (Random.bind m (fun x => k))
  (at level 61, m at next level, right associativity).

(** ** Cells, tasks and the session state *)

Module App.
Import PyDict Random.
Import PyNum (num, NInt, NFloat).

(** The options of the "Cell Type" select box. *)
Inductive CellType : Type := LFP | NMC.

Definition cell_type_name (t : CellType) : string :=
  match t with
  | LFP => "LFP"
  | NMC => "NMC"
  end.

(** The options of the "Task Type" select box. *)
Inductive TaskType : Type := CC_CV | IDLE | CC_CD.

Definition task_type_name (t : TaskType) : string :=
  match t with
  | CC_CV => "CC_CV"
  | IDLE => "IDLE"
  | CC_CD => "CC_CD"
  end.

(** A reading of [datetime.now()]. *)
Definition timestamp : Type := Z.
Bind Scope Z_scope with timestamp.

(** The dictionary built by [generate_cell_data]: its keys are fixed, so it
    is a record.  The temperature is a float at creation; a pass can leave
    the int literal [20] or [60] of the clamp in it. *)
Record Cell : Type := mkCell {
  cell_id : string;
  cell_type : CellType;
  voltage : float;
  current : float;
  temperature : num;
  capacity : float;
  min_voltage : float;
  max_voltage : float;
  status : string;
  created_at : timestamp
}.

(** Item assignments [cell["voltage"] = v] and the like. *)
Definition set_voltage (v : float) (c : Cell) : Cell :=
  mkCell (cell_id c) (cell_type c) v (current c) (temperature c) (capacity c)
    (min_voltage c) (max_voltage c) (status c) (created_at c).

Definition set_temperature (t : num) (c : Cell) : Cell :=
  mkCell (cell_id c) (cell_type c) (voltage c) (current c) t (capacity c)
    (min_voltage c) (max_voltage c) (status c) (created_at c).

Definition set_capacity (q : float) (c : Cell) : Cell :=
  mkCell (cell_id c) (cell_type c) (voltage c) (current c) (temperature c) q
    (min_voltage c) (max_voltage c) (status c) (created_at c).

(** The values stored in a task dictionary. *)
Inductive pyval : Type :=
| VStr (s : string)
| VInt (z : Z)
| VFloat (f : float)
| VTime (t : timestamp).

(** A task is a dictionary whose keys depend on the task type. *)
Definition Task : Type := dict pyval.

(** What the widgets of [add_task_form] deliver for each task type.  A
    text input yields a string, the empty one when nothing was typed; a
    number input always yields a number (its default when untouched). *)
Inductive TaskForm : Type :=
| FormCC_CV (cc_input : string) (cv_voltage current capacity : float)
    (time_seconds : Z)
| FormIDLE (time_seconds : Z)
| FormCC_CD (cc_input : string) (voltage capacity : float) (time_seconds : Z).

Definition form_task_type (f : TaskForm) : TaskType :=
  match f with
  | FormCC_CV _ _ _ _ _ => CC_CV
  | FormIDLE _ => IDLE
  | FormCC_CD _ _ _ _ => CC_CD
  end.

Definition form_time_seconds (f : TaskForm) : Z :=
  match f with
  | FormCC_CV _ _ _ _ t => t
  | FormIDLE t => t
  | FormCC_CD _ _ _ t => t
  end.

(** [st.session_state] *)
Record State : Type := mkState {
  cells_data : dict Cell;
  tasks_data : dict Task;
  simulation_running : bool;
  simulation_data : list pyval
}.

Definition initial_state : State := mkState [] [] false [].

Definition with_cells (cells : dict Cell) (st : State) : State :=
  mkState cells (tasks_data st) (simulation_running st) (simulation_data st).

Definition with_tasks (tasks : dict Task) (st : State) : State :=
  mkState (cells_data st) tasks (simulation_running st) (simulation_data st).

Definition with_running (b : bool) (st : State) : State :=
  mkState (cells_data st) (tasks_data st) b (simulation_data st).

(** What a form handler reports: [st.success] or [st.error], with the key
    named in the message. *)
Inductive Outcome : Type :=
| Added (key : string)
| AlreadyExists (key : string).

(** *** Helper functions *)

(** [generate_cell_data(cell_type, cell_id)]; [u] is the result of
    [random.uniform(25, 40)] and [now] of [datetime.now()]. *)
Definition generate_cell_data (cell_type : CellType) (cell_id : string)
    (u : float) (now : timestamp) : Cell :=
  let voltage := match cell_type with LFP => 3.2 | NMC => 3.6 end%float in
  let min_voltage := match cell_type with LFP => 2.8 | NMC => 3.2 end%float in
  let max_voltage := match cell_type with LFP => 3.6 | NMC => 4.0 end%float in
  let current := 0.0%float in
  let temp := PyFloat.py_round u 1 in
  let capacity := PyFloat.py_round (voltage * current) 2 in
  mkCell cell_id cell_type voltage current (NFloat temp) capacity
    min_voltage max_voltage "Active" now.

(** The body of the loop of [simulate_real_time_data] for one item.
    [cell_data] and [cells_data[cell_id]] are the same dictionary, so the
    three assignments act on the visited cell, and the current is read
    from it after the first two. *)
Definition tick_cell (cell_data : Cell) : Rand Cell :=
  voltage_change <- uniform (NFloat (-0.1)) (NFloat 0.1) ;;
  temp_change <- uniform (NInt (-2)) (NInt 2) ;;
  let new_voltage :=
    PyFloat.max2 (min_voltage cell_data)
      (PyFloat.min2 (max_voltage cell_data)
         (voltage cell_data + voltage_change)%float) in
  let new_temp :=
    PyNum.max2 (NInt 20)
      (PyNum.min2 (NInt 60)
         (PyNum.add (temperature cell_data) (NFloat temp_change))) in
  let cell_data := set_voltage (PyFloat.py_round new_voltage 2) cell_data in
  let cell_data := set_temperature (PyNum.round new_temp 1) cell_data in
  ret (set_capacity
         (PyFloat.py_round (new_voltage * current cell_data) 2) cell_data).

(** The loop over [cells_data.items()], in insertion order. *)
Fixpoint tick_items (items : dict Cell) : Rand (dict Cell) :=
  match items with
  | [] => ret []
  | (key, cell_data) :: rest =>
      cell_data' <- tick_cell cell_data ;;
      rest' <- tick_items rest ;;
      ret ((key, cell_data') :: rest')
  end.

(** [simulate_real_time_data()] *)
Definition simulate_real_time_data (st : State) : Rand State :=
  match cells_data st with
  | [] => ret st
  | _ :: _ =>
      cells <- tick_items (cells_data st) ;;
      ret (with_cells cells st)
  end.

(** *** Form handlers *)

Definition default_cell_id (cells : dict Cell) (cell_type : CellType) : string :=
  "cell_" ++ PyStr.of_nat (List.length cells + 1) ++ "_"
    ++ PyStr.lower (cell_type_name cell_type).

Definition default_task_id (tasks : dict Task) : string :=
  "task_" ++ PyStr.of_nat (List.length tasks + 1).

(** The key the cell form uses: the name typed, or the default one. *)
Definition cell_key (cells : dict Cell) (cell_type : CellType)
    (cell_name : string) : string :=
  if PyStr.truthy cell_name then cell_name else default_cell_id cells cell_type.

Definition task_key (tasks : dict Task) (task_name : string) : string :=
  if PyStr.truthy task_name then task_name else default_task_id tasks.

(** Submission of [add_cell_form]. *)
Definition add_cell_form (cell_type : CellType) (cell_name : string)
    (u : float) (now : timestamp) (st : State) : Outcome * State :=
  let cell_id := cell_key (cells_data st) cell_type cell_name in
  if negb (mem cell_id (cells_data st)) then
    (Added cell_id,
     with_cells
       (set cell_id (generate_cell_data cell_type cell_id u now) (cells_data st))
       st)
  else (AlreadyExists cell_id, st).

(** The dictionary a submission of [add_task_form] builds. *)
Definition make_task_data (task_id : string) (form : TaskForm)
    (now : timestamp) : Task :=
  let task_data :=
    [ ("task_id", VStr task_id);
      ("task_type", VStr (task_type_name (form_task_type form)));
      ("time_seconds", VInt (form_time_seconds form));
      ("status", VStr "Pending");
      ("created_at", VTime now) ]%string in
  match form with
  | FormCC_CV cc_input cv_voltage current capacity _ =>
      update task_data
        [ ("cc_cp", VStr cc_input);
          ("cv_voltage", VFloat cv_voltage);
          ("current", VFloat current);
          ("capacity", VFloat capacity) ]%string
  | FormIDLE _ => task_data
  | FormCC_CD cc_input voltage capacity _ =>
      update task_data
        [ ("cc_cp", VStr cc_input);
          ("voltage", VFloat voltage);
          ("capacity", VFloat capacity) ]%string
  end.

(** Submission of [add_task_form]. *)
Definition add_task_form (task_name : string) (form : TaskForm)
    (now : timestamp) (st : State) : Outcome * State :=
  let task_id := task_key (tasks_data st) task_name in
  if negb (mem task_id (tasks_data st)) then
    (Added task_id,
     with_tasks (set task_id (make_task_data task_id form now) (tasks_data st)) st)
  else (AlreadyExists task_id, st).

(** The "Remove" button of a listed cell or task. *)
Definition remove_cell (cell_id : string) (st : State) : State :=
  if mem cell_id (cells_data st)
  then with_cells (del cell_id (cells_data st)) st
  else st.

Definition remove_task (task_id : string) (st : State) : State :=
  if mem task_id (tasks_data st)
  then with_tasks (del task_id (tasks_data st)) st
  else st.

(** *** User and timer events *)

Inductive Event : Type :=
| AddCell (cell_type : CellType) (cell_name : string) (u : float)
    (now : timestamp)
| RemoveCell (cell_id : string)
| AddTask (task_name : string) (form : TaskForm) (now : timestamp)
| RemoveTask (task_id : string)
| StartSimulation
| StopSimulation
| AutoRefresh (s : draws)
| RefreshData (s : draws).

(** The "Add Tasks" and "Real-time Analysis" pages stop before their
    widgets when no cell is configured. *)
Definition page_needs_cells (st : State) (k : State -> State) : State :=
  match cells_data st with
  | [] => st
  | _ :: _ => k st
  end.

Definition step (st : State) (ev : Event) : State :=
  match ev with
  | AddCell cell_type cell_name u now =>
      snd (add_cell_form cell_type cell_name u now st)
  | RemoveCell cell_id => remove_cell cell_id st
  | AddTask task_name form now =>
      page_needs_cells st (fun st => snd (add_task_form task_name form now st))
  | RemoveTask task_id => page_needs_cells st (remove_task task_id)
  | StartSimulation => page_needs_cells st (with_running true)
  | StopSimulation => page_needs_cells st (with_running false)
  | AutoRefresh s =>
      page_needs_cells st (fun st =>
        if simulation_running st then run (simulate_real_time_data st) s else st)
  | RefreshData s =>
      match cells_data st with
      | [] => st
      | _ :: _ => run (simulate_real_time_data st) s
      end
  end.

(** The state after a sequence of events, from the initial one. *)
Definition run_events (evs : list Event) : State :=
  fold_left step evs initial_state.

End App.

(** ** Vocabulary of the properties *)

Module Props.
Import PyDict Random App.
Import PyNum (num, NInt, NFloat).

(** The voltage window [generate_cell_data] gives each chemistry. *)
Definition window (t : CellType) : float * float :=
  match t with
  | LFP => (2.8, 3.6)
  | NMC => (3.2, 4.0)
  end%float.

Definition has_window (c : Cell) : Prop :=
  (min_voltage c, max_voltage c) = window (cell_type c).

(** [min_voltage <= voltage <= max_voltage] *)
Definition voltage_in_bounds (c : Cell) : Prop :=
  PyFloat.in_range (min_voltage c) (max_voltage c) (voltage c) = true.

(** [20 <= temperature <= 60] *)
Definition temperature_in_bounds (c : Cell) : Prop :=
  PyNum.in_range (NInt 20) (NInt 60) (temperature c) = true.

(** [capacity == round(voltage * current, 2)], as Python's [==] on floats
    and as identity of the two floats. *)
Definition capacity_consistent (c : Cell) : Prop :=
  (capacity c =? PyFloat.py_round (voltage c * current c) 2)%float = true
  /\ capacity c = PyFloat.py_round (voltage c * current c) 2.

(** The fields of a cell that a pass does not assign. *)
Definition same_frame (c c' : Cell) : Prop :=
  cell_id c' = cell_id c /\ cell_type c' = cell_type c
  /\ current c' = current c
  /\ min_voltage c' = min_voltage c /\ max_voltage c' = max_voltage c
  /\ status c' = status c /\ created_at c' = created_at c.

Definition every_cell (P : Cell -> Prop) (st : State) : Prop :=
  Forall P (values (cells_data st)).

(** The draws made at cell creation honour [random.uniform(25, 40)]. *)
Definition creation_draw_ok (ev : Event) : Prop :=
  match ev with
  | AddCell _ _ u _ => honours (NInt 25) (NInt 40) u
  | _ => True
  end.

(** The keys of a stored task, by task type. *)
Definition base_keys : list string :=
  ["task_id"; "task_type"; "time_seconds"; "status"; "created_at"]%string.

Definition keys_of_type (t : TaskType) : list string :=
  match t with
  | CC_CV => List.app base_keys ["cc_cp"; "cv_voltage"; "current"; "capacity"]
  | IDLE => base_keys
  | CC_CD => List.app base_keys ["cc_cp"; "voltage"; "capacity"]
  end%string.

End Props.

(** ** Page computations *)

Module Views.
Import PyDict App.

(** [cell["cell_type"] == t] *)
Definition cell_type_eqb (a b : CellType) : bool :=
  match a, b with
  | LFP, LFP | NMC, NMC => true
  | _, _ => false
  end.

(** [sum(1 for cell in cells_data.values() if cell["cell_type"] == t)], the
    count shown on the home page and written in the export report. *)
Definition count_cell_type (t : CellType) (cells : dict Cell) : nat :=
  list_sum
    (map (fun _ => 1%nat)
       (filter (fun cell => cell_type_eqb (cell_type cell) t) (values cells))).

Definition lfp_count (st : State) : nat := count_cell_type LFP (cells_data st).
Definition nmc_count (st : State) : nat := count_cell_type NMC (cells_data st).

(** [len(st.session_state.cells_data)] and [len(st.session_state.tasks_data)] *)
Definition total_cells (st : State) : nat := List.length (cells_data st).
Definition total_tasks (st : State) : nat := List.length (tasks_data st).

(** The live metrics of the analysis page: [st.columns(min(4, len(cells)))]
    makes the columns, and the cell at position [idx] goes to
    [cols[idx % 4]]. *)
Definition metric_columns (st : State) : nat :=
  Nat.min 4 (List.length (cells_data st)).

Definition metric_column (idx : nat) : nat := idx mod 4.

End Views.

(** ** Vocabulary of the further properties *)

Module Traces.
Import PyDict Random App Props.
Import PyNum (num, NInt, NFloat).

Definition is_add_cell (ev : Event) : bool :=
  match ev with
  | AddCell _ _ _ _ => true
  | _ => false
  end.

(** The events of the "Add Tasks" page. *)
Definition is_task_event (ev : Event) : bool :=
  match ev with
  | AddTask _ _ _ | RemoveTask _ => true
  | _ => false
  end.

Definition is_start_stop (ev : Event) : bool :=
  match ev with
  | StartSimulation | StopSimulation => true
  | _ => false
  end.

(** The Remove button of the cell, or of the task, stored under [k]. *)
Definition removes_cell (k : string) (ev : Event) : bool :=
  match ev with
  | RemoveCell k' => String.eqb k' k
  | _ => false
  end.

Definition removes_task (k : string) (ev : Event) : bool :=
  match ev with
  | RemoveTask k' => String.eqb k' k
  | _ => false
  end.

(** An event that removes nothing and types no name. *)
Definition default_named (ev : Event) : bool :=
  match ev with
  | AddCell _ name _ _ => negb (PyStr.truthy name)
  | AddTask name _ _ => negb (PyStr.truthy name)
  | RemoveCell _ | RemoveTask _ => false
  | _ => true
  end.

(** [x] is the float nearest to [d / 10^ndigits] for an integer [d] of
    [[lo, hi]]. *)
Definition on_grid (lo hi : Z) (ndigits : nat) (x : float) : Prop :=
  exists d, lo <= Zpos d <= hi /\ x = PyFloat.of_decimal false d ndigits.

(** The stored voltage is a number of hundredths of the cell's window. *)
Definition voltage_on_grid (c : Cell) : Prop :=
  match cell_type c with
  | LFP => on_grid 280 360 2 (voltage c)
  | NMC => on_grid 320 400 2 (voltage c)
  end.

(** The stored temperature is the int [20] or [60], or a number of tenths
    between 20 and 60. *)
Definition temperature_on_grid (c : Cell) : Prop :=
  match temperature c with
  | NInt z => z = 20 \/ z = 60
  | NFloat x => on_grid 200 600 1 x
  end.

(** A cell is stored under its own [cell_id]; a task under its own
    [task_id], with the keys of its [task_type]. *)
Definition cell_entry_ok (kv : string * Cell) : Prop :=
  cell_id (snd kv) = fst kv.

Definition task_entry_ok (kv : string * Task) : Prop :=
  get "task_id" (snd kv) = Some (VStr (fst kv))
  /\ get "status" (snd kv) = Some (VStr "Pending")
  /\ exists t,
       get "task_type" (snd kv) = Some (VStr (task_type_name t))
       /\ keys (snd kv) = keys_of_type t.

(** Structural equality of the values of two floats. *)
Definition sf_same (a b : spec_float) : bool :=
  match a, b with
  | S754_zero s, S754_zero t => Bool.eqb s t
  | S754_infinity s, S754_infinity t => Bool.eqb s t
  | S754_nan, S754_nan => true
  | S754_finite s m e, S754_finite t n f =>
      Bool.eqb s t && Pos.eqb m n && Z.eqb e f
  | _, _ => false
  end.

(** Rounding the decimals [dlo .. dlo + count] of [ndigits] digits again
    gives them back: a finite check, by evaluation. *)
Definition round_fixed_table (ndigits : nat) (dlo : positive) (count : nat)
    : bool :=
  forallb
    (fun i =>
       let x := PyFloat.of_decimal false (dlo + Pos.of_nat i) ndigits in
       sf_same (Prim2SF (PyFloat.py_round x ndigits)) (Prim2SF x))
    (seq 1 count)
  && sf_same
       (Prim2SF (PyFloat.py_round (PyFloat.of_decimal false dlo ndigits) ndigits))
       (Prim2SF (PyFloat.of_decimal false dlo ndigits)).

(** Every key of the registry is a default key whose counter is at most
    the size of the registry. *)
Definition counted_cell_keys (cells : dict Cell) : Prop :=
  forall k, In k (keys cells) ->
    exists i ty, (1 <= i <= List.length cells)%nat
      /\ k = ("cell_" ++ PyStr.of_nat i ++ "_"
               ++ PyStr.lower (cell_type_name ty))%string.

Definition counted_task_keys (tasks : dict Task) : Prop :=
  forall k, In k (keys tasks) ->
    exists i, (1 <= i <= List.length tasks)%nat
      /\ k = ("task_" ++ PyStr.of_nat i)%string.

(** [f] holds of every [d] with [dlo <= d <= dlo + count]: a finite check,
    by evaluation. *)
Definition range_holds (f : positive -> bool) (dlo : positive) (count : nat)
    : bool :=
  forallb (fun i => f (dlo + Pos.of_nat i)%positive) (seq 1 count) && f dlo.

(** A pass with zero draws gives the voltage [d / 100] of a cell of window
    [[lo, hi]] back. *)
Definition zero_draw_keeps_voltage (lo hi : float) (d : positive) : bool :=
  let v := PyFloat.of_decimal false d 2 in
  sf_same
    (Prim2SF
       (PyFloat.py_round (PyFloat.max2 lo (PyFloat.min2 hi (v + 0)%float)) 2))
    (Prim2SF v).

(** A pass with zero draws gives the temperature [t] back, as a number. *)
Definition zero_draw_keeps_temperature (t : num) : bool :=
  sf_same
    (Prim2SF
       (PyNum.to_float
          (PyNum.round
             (PyNum.max2 (NInt 20)
                (PyNum.min2 (NInt 60) (PyNum.add t (NFloat 0)))) 1)))
    (Prim2SF (PyNum.to_float t)).

(** A decimal digit, and a string of decimal digits. *)
Definition is_digit (c : ascii) : bool :=
  let n := nat_of_ascii c in ((48 <=? n) && (n <=? 57))%nat.

Fixpoint all_digits (s : string) : bool :=
  match s with
  | EmptyString => true
  | String c rest => is_digit c && all_digits rest
  end.

End Traces.

(** * Properties *)

(** ** Rounding and clamping of floats *)

Section FloatFacts.
Import PyFloat.

Lemma rne_div_spec a q :
  0 < q -> 2 * q * rne_div a q - q <= 2 * a <= 2 * q * rne_div a q + q.
Proof.
  intros Hq. unfold rne_div.
  pose proof (Z_div_mod a q ltac:(lia)) as H.
  destruct (Z.div_eucl a q) as [k r]. destruct H as [H1 H2].
  destruct (Z.compare_spec (2 * r) q); [destruct (Z.even k)| |]; nia.
Qed.

Lemma rne_div_between a q dlo dhi :
  0 < q -> (2 * dlo - 1) * q < 2 * a -> 2 * a < (2 * dhi + 1) * q ->
  dlo <= rne_div a q <= dhi.
Proof.
  intros Hq Hl Hh. pose proof (rne_div_spec a q Hq). nia.
Qed.

Lemma scaled_round_neg m e n :
  e < 0 -> scaled_round m e n = rne_div (Zpos m * 10 ^ Z.of_nat n) (2 ^ (- e)).
Proof.
  intros He. unfold scaled_round.
  destruct (Z.leb_spec 0 e); [lia|reflexivity].
Qed.

Lemma digits2_pos_bounds m :
  2 ^ (Zpos (digits2_pos m) - 1) <= Zpos m < 2 ^ Zpos (digits2_pos m).
Proof.
  induction m as [m IH|m IH|]; cbn [digits2_pos].
  - rewrite Pos2Z.inj_succ.
    replace (Z.succ (Z.pos (digits2_pos m)) - 1)
      with (Z.succ (Z.pos (digits2_pos m) - 1)) by lia.
    rewrite !Z.pow_succ_r by lia. lia.
  - rewrite Pos2Z.inj_succ.
    replace (Z.succ (Z.pos (digits2_pos m)) - 1)
      with (Z.succ (Z.pos (digits2_pos m) - 1)) by lia.
    rewrite !Z.pow_succ_r by lia. lia.
  - cbn. lia.
Qed.

(** A binary64 number whose exponent is above the least one is normal:
    its mantissa has 53 bits. *)
Lemma valid_normal s m e :
  valid_binary (S754_finite s m e) = true -> -1074 < e ->
  2 ^ 52 <= Zpos m < 2 ^ 53.
Proof.
  cbn [valid_binary]. unfold bounded, canonical_mantissa, fexp, emin, prec, emax.
  intros H He. apply andb_prop in H. destruct H as [H _].
  apply Z.eqb_eq in H.
  pose proof (digits2_pos_bounds m) as B.
  assert (Zpos (digits2_pos m) = 53) as E by lia.
  rewrite E in B. exact B.
Qed.

(** A float between two positive normal floats is a positive normal float,
    ordered with them by exponent first and mantissa next. *)
Lemma between_finite (lo hi x : float) mlo elo mhi ehi :
  Prim2SF lo = S754_finite false mlo elo ->
  Prim2SF hi = S754_finite false mhi ehi ->
  -1074 < elo ->
  (lo <=? x)%float = true -> (x <=? hi)%float = true ->
  exists m e, Prim2SF x = S754_finite false m e /\
    2 ^ 52 <= Zpos m < 2 ^ 53 /\
    (elo < e \/ (e = elo /\ Zpos mlo <= Zpos m)) /\
    (e < ehi \/ (e = ehi /\ Zpos m <= Zpos mhi)).
Proof.
  intros Elo Ehi Hn Hlo Hhi.
  rewrite leb_spec in Hlo, Hhi. rewrite Elo in Hlo. rewrite Ehi in Hhi.
  pose proof (Prim2SF_valid x) as Hv.
  destruct (Prim2SF x) as [s|s| |s m e]; cbn in Hlo, Hhi; try discriminate.
  - destruct s; discriminate.
  - destruct s; try discriminate.
    exists m, e. split; [reflexivity|].
    unfold SFleb, SFcompare in Hlo, Hhi.
    assert (elo <= e) as Hle.
    { destruct (Z.compare_spec elo e); try lia; discriminate. }
    split; [apply (valid_normal false m e Hv); lia|].
    split.
    + destruct (Z.compare_spec elo e) as [E|E|E]; try discriminate;
        [right|left; lia].
      split; [lia|]. fold (Pos.compare mlo m) in Hlo.
      destruct (Pos.compare_spec mlo m); try discriminate; lia.
    + destruct (Z.compare_spec e ehi) as [E|E|E]; try discriminate;
        [right|left; lia].
      split; [lia|]. fold (Pos.compare m mhi) in Hhi.
      destruct (Pos.compare_spec m mhi); try discriminate; lia.
Qed.

Lemma table_ok_spec lo hi n dlo count d :
  table_ok lo hi n dlo count = true ->
  Zpos dlo <= Zpos d <= Zpos dlo + Z.of_nat count ->
  in_range lo hi (of_decimal false d n) = true.
Proof.
  unfold table_ok. intros H Hd. apply andb_prop in H. destruct H as [H H0].
  destruct (Pos.eq_dec d dlo) as [->|Hne]; [exact H0|].
  rewrite forallb_forall in H.
  specialize (H (Pos.to_nat (d - dlo))).
  assert (Zpos dlo < Zpos d) by lia.
  rewrite Pos2Nat.id in H.
  replace (dlo + (d - dlo))%positive with d in H by lia.
  apply H. apply in_seq. lia.
Qed.

(** Rounding a positive float whose scaled value lands in [[dlo, dhi]]
    reads back one of the decimals [dlo .. dhi]. *)
Lemma py_round_finite x m e n dlo dhi :
  Prim2SF x = S754_finite false m e ->
  0 < dlo -> dlo <= scaled_round m e n <= dhi ->
  exists d, dlo <= Zpos d <= dhi /\ py_round x n = of_decimal false d n.
Proof.
  intros Ex H0 Hd. unfold py_round. rewrite Ex.
  destruct (scaled_round m e n) as [|d|d]; try lia.
  exists d. split; [lia|reflexivity].
Qed.

End FloatFacts.

Ltac scaled_bounds :=
  rewrite scaled_round_neg by lia;
  apply rne_div_between; [reflexivity | cbn; lia | cbn; lia].

Section RoundingWindows.
Import PyFloat.

(** Rounding to two decimals keeps a voltage inside the LFP window. *)
Lemma round_in_LFP_window x :
  in_range 2.8 3.6 x = true -> in_range 2.8 3.6 (py_round x 2) = true.
Proof.
  intros H. apply andb_prop in H. destruct H as [Hlo Hhi].
  destruct (between_finite 2.8 3.6 x 6305039478318694 (-51) 8106479329266893 (-51))
    as (m & e & Ex & Hm & Hl & Hh);
    [reflexivity | reflexivity | lia | exact Hlo | exact Hhi |].
  destruct (py_round_finite x m e 2 280 360 Ex) as (d & Hd & ->); [lia| |].
  - assert (e = -51) as -> by lia. scaled_bounds.
  - apply (table_ok_spec 2.8 3.6 2 280 80 d); [vm_compute; reflexivity|lia].
Qed.

(** Rounding to two decimals keeps a voltage inside the NMC window. *)
Lemma round_in_NMC_window x :
  in_range 3.2 4.0 x = true -> in_range 3.2 4.0 (py_round x 2) = true.
Proof.
  intros H. apply andb_prop in H. destruct H as [Hlo Hhi].
  destruct (between_finite 3.2 4.0 x 7205759403792794 (-51) 4503599627370496 (-50))
    as (m & e & Ex & Hm & Hl & Hh);
    [reflexivity | reflexivity | lia | exact Hlo | exact Hhi |].
  destruct (py_round_finite x m e 2 320 400 Ex) as (d & Hd & ->); [lia| |].
  - assert (e = -51 \/ e = -50) as [-> | ->] by lia; scaled_bounds.
  - apply (table_ok_spec 3.2 4.0 2 320 80 d); [vm_compute; reflexivity|lia].
Qed.

(** Rounding to one decimal keeps a temperature inside [[20, 60]]. *)
Lemma round_in_temperature_window x :
  in_range 20 60 x = true -> in_range 20 60 (py_round x 1) = true.
Proof.
  intros H. apply andb_prop in H. destruct H as [Hlo Hhi].
  destruct (between_finite 20 60 x 5629499534213120 (-48) 8444249301319680 (-47))
    as (m & e & Ex & Hm & Hl & Hh);
    [reflexivity | reflexivity | lia | exact Hlo | exact Hhi |].
  destruct (py_round_finite x m e 1 200 600 Ex) as (d & Hd & ->); [lia| |].
  - assert (e = -48 \/ e = -47) as [-> | ->] by lia; scaled_bounds.
  - apply (table_ok_spec 20 60 1 200 400 d); [vm_compute; reflexivity|lia].
Qed.

(** A draw of [random.uniform(25, 40)] rounded to one decimal is still
    within [[25, 40]], hence within [[20, 60]]. *)
Lemma round_creation_draw u :
  in_range 25 40 u = true ->
  in_range 25 40 (py_round u 1) = true /\ in_range 20 60 (py_round u 1) = true.
Proof.
  intros H. apply andb_prop in H. destruct H as [Hlo Hhi].
  destruct (between_finite 25 40 u 7036874417766400 (-48) 5629499534213120 (-47))
    as (m & e & Ex & Hm & Hl & Hh);
    [reflexivity | reflexivity | lia | exact Hlo | exact Hhi |].
  destruct (py_round_finite u m e 1 250 400 Ex) as (d & Hd & ->); [lia| |].
  - assert (e = -48 \/ e = -47) as [-> | ->] by lia; scaled_bounds.
  - split.
    + apply (table_ok_spec 25 40 1 250 150 d); [vm_compute; reflexivity|lia].
    + apply (table_ok_spec 20 60 1 250 150 d); [vm_compute; reflexivity|lia].
Qed.

End RoundingWindows.

(** ** Comparison and clamping *)

Section OrderFacts.
Import PyFloat.

Lemma SFcompare_refl x : x <> S754_nan -> SFcompare x x = Some Eq.
Proof.
  destruct x as [s|s| |s m e]; intros H; cbn; try congruence.
  - destruct s; reflexivity.
  - rewrite Z.compare_refl.
    fold (Pos.compare m m). rewrite Pos.compare_refl. destruct s; reflexivity.
Qed.

Lemma ltb_leb (a b : float) : (a <? b)%float = true -> (a <=? b)%float = true.
Proof.
  rewrite ltb_spec, leb_spec. unfold SFltb, SFleb.
  destruct (SFcompare (Prim2SF a) (Prim2SF b)) as [[]|]; congruence.
Qed.

Lemma leb_refl_of_leb (a b : float) :
  (a <=? b)%float = true -> (a <=? a)%float = true /\ (b <=? b)%float = true.
Proof.
  rewrite !leb_spec. unfold SFleb. intros H.
  assert (Prim2SF a <> S754_nan /\ Prim2SF b <> S754_nan) as [Ha Hb].
  { destruct (Prim2SF a), (Prim2SF b); cbn in H; split; congruence. }
  rewrite !SFcompare_refl by assumption. split; reflexivity.
Qed.

(** [max(lo, min(hi, y))] lies in [[lo, hi]] whatever [y] is, NaN and
    infinities included. *)
Lemma clamp_in_range (lo hi y : float) :
  (lo <=? hi)%float = true -> in_range lo hi (max2 lo (min2 hi y)) = true.
Proof.
  intros H. destruct (leb_refl_of_leb lo hi H) as [Hlo Hhi].
  unfold in_range, max2, min2.
  destruct (y <? hi)%float eqn:Eyh.
  - destruct (lo <? y)%float eqn:Ely.
    + rewrite (ltb_leb _ _ Ely), (ltb_leb _ _ Eyh). reflexivity.
    + rewrite Hlo, H. reflexivity.
  - destruct (lo <? hi)%float.
    + rewrite H, Hhi. reflexivity.
    + rewrite Hlo, H. reflexivity.
Qed.

(** The product of a float of a positive window with [0.0] is [0.0]. *)
Lemma mul_zero_in_window (lo hi x : float) mlo elo mhi ehi :
  Prim2SF lo = S754_finite false mlo elo ->
  Prim2SF hi = S754_finite false mhi ehi ->
  in_range lo hi x = true -> (x * 0)%float = 0%float.
Proof.
  intros Elo Ehi H. apply andb_prop in H. destruct H as [Hlo Hhi].
  apply Prim2SF_inj. rewrite mul_spec.
  rewrite leb_spec in Hlo, Hhi. rewrite Elo in Hlo. rewrite Ehi in Hhi.
  destruct (Prim2SF x) as [s|s| |s m e]; cbn in Hlo, Hhi; try discriminate.
  - destruct s; discriminate.
  - destruct s; [discriminate|]. reflexivity.
Qed.

End OrderFacts.

(** ** Dictionaries *)

Section DictFacts.
Import PyDict.
Context {V : Type}.
Implicit Types (d : dict V) (k : string) (v : V).

Lemma set_new k v d : mem k d = false -> set k v d = d ++ [(k, v)].
Proof.
  induction d as [|[k' v'] d IH]; cbn; [reflexivity|].
  destruct (String.eqb k k'); [discriminate|].
  intros H. rewrite (IH H). reflexivity.
Qed.

Lemma get_set_same k v d : get k (set k v d) = Some v.
Proof.
  induction d as [|[k' v'] d IH]; cbn.
  - rewrite String.eqb_refl. reflexivity.
  - destruct (String.eqb k k') eqn:E; cbn; rewrite E; [reflexivity|exact IH].
Qed.

Lemma mem_get k d : mem k d = true <-> exists v, get k d = Some v.
Proof.
  induction d as [|[k' v'] d IH]; cbn.
  - split; [discriminate|intros [v H]; discriminate].
  - destruct (String.eqb k k'); [|exact IH].
    split; [eauto|reflexivity].
Qed.

Lemma Forall_values_set (P : V -> Prop) k v d :
  P v -> Forall P (values d) -> Forall P (values (set k v d)).
Proof.
  intros Hv. induction d as [|[k' v'] d IH]; cbn; intros H.
  - constructor; [exact Hv|constructor].
  - inversion H; subst. destruct (String.eqb k k'); cbn; constructor; auto.
Qed.

Lemma Forall_values_del (P : V -> Prop) k d :
  Forall P (values d) -> Forall P (values (del k d)).
Proof.
  induction d as [|[k' v'] d IH]; cbn; intros H; [constructor|].
  inversion H; subst. destruct (String.eqb k k'); cbn; [assumption|].
  constructor; auto.
Qed.

Lemma mem_In k d : mem k d = true <-> In k (keys d).
Proof.
  induction d as [|[k' v'] d IH]; cbn.
  - split; [discriminate|tauto].
  - destruct (String.eqb_spec k k') as [->|Hne].
    + split; auto.
    + rewrite IH. split; [auto|intros [E|H]; [congruence|exact H]].
Qed.

Lemma keys_set k v d :
  keys (set k v d) = if mem k d then keys d else keys d ++ [k].
Proof.
  unfold keys. induction d as [|[k' v'] d IH]; cbn; [reflexivity|].
  destruct (String.eqb k k'); cbn; [reflexivity|].
  rewrite IH. destruct (mem k d); reflexivity.
Qed.

Lemma In_keys_del k k' d : In k' (keys (del k d)) -> In k' (keys d).
Proof.
  induction d as [|[k0 v0] d IH]; cbn; [tauto|].
  destruct (String.eqb k k0); cbn; tauto.
Qed.

(** Item assignment and deletion keep the keys distinct. *)
Lemma NoDup_keys_set k v d : NoDup (keys d) -> NoDup (keys (set k v d)).
Proof.
  intros H. rewrite keys_set. destruct (mem k d) eqn:E; [exact H|].
  apply NoDup_app; [exact H|repeat constructor; intros []|].
  intros k' Hin [<-|[]].
  apply mem_In in Hin. congruence.
Qed.

Lemma NoDup_keys_del k d : NoDup (keys d) -> NoDup (keys (del k d)).
Proof.
  induction d as [|[k0 v0] d IH]; cbn; intros H; [constructor|].
  inversion H as [|? ? Hnot Hrest]; subst.
  destruct (String.eqb k k0); cbn; [exact Hrest|].
  constructor; [|apply IH; exact Hrest].
  intros Hin. apply Hnot. apply (In_keys_del k). exact Hin.
Qed.

End DictFacts.

(** ** One cell, one pass *)

Section CellFacts.
Import PyDict Random App Props.
Import PyNum (num, NInt, NFloat).

(** What the loop body leaves in the cell, field by field, and the draws it
    consumes: two per cell, the voltage change first. *)
Lemma tick_cell_fields (c : Cell) (s : draws) :
  let new_voltage :=
    PyFloat.max2 (min_voltage c)
      (PyFloat.min2 (max_voltage c) (voltage c + s 0%nat)%float) in
  let new_temp :=
    PyNum.max2 (NInt 20)
      (PyNum.min2 (NInt 60) (PyNum.add (temperature c) (NFloat (s 1%nat)))) in
  let c' := fst (tick_cell c s) in
  voltage c' = PyFloat.py_round new_voltage 2
  /\ temperature c' = PyNum.round new_temp 1
  /\ capacity c' = PyFloat.py_round (new_voltage * current c) 2
  /\ same_frame c c'
  /\ snd (tick_cell c s) = (fun n => s (S (S n))).
Proof.
  cbv zeta. unfold same_frame. repeat split; reflexivity.
Qed.

Lemma window_cases (c : Cell) :
  has_window c ->
  (min_voltage c = 2.8 /\ max_voltage c = 3.6)%float
  \/ (min_voltage c = 3.2 /\ max_voltage c = 4.0)%float.
Proof.
  unfold has_window, window. intros H.
  destruct (cell_type c); injection H as -> ->; auto.
Qed.

Lemma generated_cell_window ty id u now :
  has_window (generate_cell_data ty id u now)
  /\ voltage_in_bounds (generate_cell_data ty id u now).
Proof.
  destruct ty; split; reflexivity.
Qed.

Lemma generated_cell_capacity ty id u now :
  current (generate_cell_data ty id u now) = 0%float
  /\ capacity_consistent (generate_cell_data ty id u now).
Proof.
  destruct ty; repeat split; reflexivity.
Qed.

Lemma generated_cell_temperature ty id u now :
  honours (NInt 25) (NInt 40) u ->
  temperature (generate_cell_data ty id u now) = NFloat (PyFloat.py_round u 1)
  /\ PyNum.in_range (NInt 25) (NInt 40)
       (temperature (generate_cell_data ty id u now)) = true
  /\ temperature_in_bounds (generate_cell_data ty id u now).
Proof.
  intros H. split; [reflexivity|].
  destruct (round_creation_draw u H) as [H1 H2]. split; assumption.
Qed.

(** The new voltage, clamped and rounded, is within the cell's window. *)
Lemma tick_cell_voltage (c : Cell) (s : draws) :
  has_window c ->
  has_window (fst (tick_cell c s)) /\ voltage_in_bounds (fst (tick_cell c s)).
Proof.
  intros Hw. split; [exact Hw|].
  unfold voltage_in_bounds.
  destruct (tick_cell_fields c s) as (Hv & _ & _ & Hf & _).
  destruct Hf as (_ & _ & _ & Hmin & Hmax & _).
  rewrite Hv, Hmin, Hmax.
  destruct (window_cases c Hw) as [[-> ->]|[-> ->]].
  - apply round_in_LFP_window, clamp_in_range. reflexivity.
  - apply round_in_NMC_window, clamp_in_range. reflexivity.
Qed.

(** The new temperature, clamped and rounded, is within [[20, 60]],
    whatever the old temperature and the draw are. *)
Lemma tick_cell_temperature (c : Cell) (s : draws) :
  temperature_in_bounds (fst (tick_cell c s)).
Proof.
  unfold temperature_in_bounds.
  destruct (tick_cell_fields c s) as (_ & -> & _).
  set (y := PyNum.to_float (temperature c)).
  assert (PyNum.add (temperature c) (NFloat (s 1%nat))
          = NFloat (y + s 1%nat)%float) as ->
    by (subst y; destruct (temperature c); reflexivity).
  unfold PyNum.min2, PyNum.max2.
  change (PyNum.lt (NFloat (y + s 1%nat)%float) (NInt 60))
    with ((y + s 1%nat) <? 60)%float.
  destruct ((y + s 1%nat) <? 60)%float eqn:Ehi; [|reflexivity].
  change (PyNum.lt (NInt 20) (NFloat (y + s 1%nat)%float))
    with (20 <? (y + s 1%nat))%float.
  destruct (20 <? (y + s 1%nat))%float eqn:Elo; [|reflexivity].
  apply round_in_temperature_window.
  unfold PyFloat.in_range.
  rewrite (ltb_leb _ _ Elo), (ltb_leb _ _ Ehi). reflexivity.
Qed.

(** With a zero current, the capacity computed from the unrounded voltage
    is the one the stored, rounded voltage gives. *)
Lemma tick_cell_capacity (c : Cell) (s : draws) :
  has_window c -> current c = 0%float ->
  current (fst (tick_cell c s)) = 0%float
  /\ capacity_consistent (fst (tick_cell c s)).
Proof.
  intros Hw Hc.
  destruct (tick_cell_fields c s) as (Hv & _ & Hq & Hf & _).
  destruct Hf as (_ & _ & Hcur & _).
  split; [congruence|].
  assert (capacity (fst (tick_cell c s))
          = PyFloat.py_round
              (voltage (fst (tick_cell c s)) * current (fst (tick_cell c s))) 2)
    as E.
  { rewrite Hq, Hv, Hcur, Hc.
    destruct (window_cases c Hw) as [[-> ->]|[-> ->]].
    - rewrite (mul_zero_in_window 2.8 3.6 _ _ _ _ _ eq_refl eq_refl
                 (clamp_in_range 2.8 3.6 _ eq_refl)).
      rewrite (mul_zero_in_window 2.8 3.6 _ _ _ _ _ eq_refl eq_refl
                 (round_in_LFP_window _ (clamp_in_range 2.8 3.6 _ eq_refl))).
      reflexivity.
    - rewrite (mul_zero_in_window 3.2 4.0 _ _ _ _ _ eq_refl eq_refl
                 (clamp_in_range 3.2 4.0 _ eq_refl)).
      rewrite (mul_zero_in_window 3.2 4.0 _ _ _ _ _ eq_refl eq_refl
                 (round_in_NMC_window _ (clamp_in_range 3.2 4.0 _ eq_refl))).
      reflexivity. }
  split; [|exact E].
  rewrite <- E. rewrite Hq, Hc.
  destruct (window_cases c Hw) as [[-> ->]|[-> ->]].
  - rewrite (mul_zero_in_window 2.8 3.6 _ _ _ _ _ eq_refl eq_refl
               (clamp_in_range 2.8 3.6 _ eq_refl)). reflexivity.
  - rewrite (mul_zero_in_window 3.2 4.0 _ _ _ _ _ eq_refl eq_refl
               (clamp_in_range 3.2 4.0 _ eq_refl)). reflexivity.
Qed.

End CellFacts.

(** ** A pass over the registry *)

Section PassFacts.
Import PyDict Random App Props.

Lemma tick_items_cons k c items s :
  fst (tick_items ((k, c) :: items) s)
  = (k, fst (tick_cell c s)) :: fst (tick_items items (snd (tick_cell c s))).
Proof.
  cbn [tick_items]. unfold bind, ret.
  destruct (tick_cell c s) as [c' s'].
  cbn [fst snd]. destruct (tick_items items s') as [rest' s'']. reflexivity.
Qed.

Lemma tick_items_Forall (P Q : Cell -> Prop) :
  (forall c s, P c -> Q (fst (tick_cell c s))) ->
  forall items s,
    Forall P (values items) -> Forall Q (values (fst (tick_items items s))).
Proof.
  intros Hstep. induction items as [|[k c] items IH]; intros s H.
  - constructor.
  - rewrite tick_items_cons. inversion H as [|? ? Hc Hrest]; subst.
    constructor; [apply Hstep; exact Hc|apply IH; exact Hrest].
Qed.

Lemma tick_items_frame items s :
  keys (fst (tick_items items s)) = keys items
  /\ Forall2 same_frame (values items) (values (fst (tick_items items s))).
Proof.
  revert s. induction items as [|[k c] items IH]; intros s.
  - split; [reflexivity|constructor].
  - rewrite tick_items_cons.
    destruct (IH (snd (tick_cell c s))) as [IH1 IH2].
    split; [unfold keys in *; cbn [map fst]; f_equal; exact IH1|].
    constructor; [|exact IH2].
    apply (tick_cell_fields c s).
Qed.

Lemma simulate_cells st s :
  cells_data (run (simulate_real_time_data st) s)
  = fst (tick_items (cells_data st) s).
Proof.
  unfold simulate_real_time_data, run.
  destruct (cells_data st) as [|kc rest] eqn:E.
  - cbn. exact E.
  - unfold bind. destruct (tick_items (kc :: rest) s) as [cells s']. reflexivity.
Qed.

Lemma simulate_rest st s :
  tasks_data (run (simulate_real_time_data st) s) = tasks_data st
  /\ simulation_running (run (simulate_real_time_data st) s)
     = simulation_running st
  /\ simulation_data (run (simulate_real_time_data st) s) = simulation_data st.
Proof.
  unfold simulate_real_time_data, run.
  destruct (cells_data st) as [|kc rest].
  - repeat split; reflexivity.
  - unfold bind. destruct (tick_items (kc :: rest) s) as [cells s'].
    repeat split; reflexivity.
Qed.

Lemma simulate_every_cell (P Q : Cell -> Prop) st s :
  (forall c s, P c -> Q (fst (tick_cell c s))) ->
  every_cell P st -> every_cell Q (run (simulate_real_time_data st) s).
Proof.
  unfold every_cell. intros Hstep H. rewrite simulate_cells.
  apply (tick_items_Forall P Q Hstep). exact H.
Qed.

(** A property of cells that creation establishes and the loop body keeps
    holds of every cell after every event. *)
Lemma step_every_cell (P : Cell -> Prop) (G : Event -> Prop) :
  (forall ty name u now id,
      G (AddCell ty name u now) -> P (generate_cell_data ty id u now)) ->
  (forall c s, P c -> P (fst (tick_cell c s))) ->
  forall st ev, G ev -> every_cell P st -> every_cell P (step st ev).
Proof.
  intros Hnew Hstep st ev Hg H. unfold every_cell in *.
  destruct ev as [ty name u now|id|name form now|id| | |s|s]; cbn.
  - unfold add_cell_form.
    destruct (mem _ (cells_data st)); cbn; [exact H|].
    apply Forall_values_set; [|exact H]. eapply Hnew; exact Hg.
  - unfold remove_cell. destruct (mem id (cells_data st)); cbn; [|exact H].
    apply Forall_values_del. exact H.
  - unfold page_needs_cells. destruct (cells_data st) eqn:E; [rewrite E; exact H|].
    unfold add_task_form. destruct (mem _ (tasks_data st)); cbn; rewrite E in *; exact H.
  - unfold page_needs_cells. destruct (cells_data st) eqn:E; [rewrite E; exact H|].
    unfold remove_task. destruct (mem _ (tasks_data st)); cbn; rewrite E in *; exact H.
  - unfold page_needs_cells. destruct (cells_data st) eqn:E; [rewrite E; exact H|].
    cbn. rewrite E in *. exact H.
  - unfold page_needs_cells. destruct (cells_data st) eqn:E; [rewrite E; exact H|].
    cbn. rewrite E in *. exact H.
  - unfold page_needs_cells. destruct (cells_data st) eqn:E; [rewrite E; exact H|].
    destruct (simulation_running st); [|rewrite E; exact H].
    apply (simulate_every_cell P P st s Hstep). unfold every_cell.
    rewrite E. exact H.
  - destruct (cells_data st) eqn:E; [rewrite E; exact H|].
    apply (simulate_every_cell P P st s Hstep). unfold every_cell.
    rewrite E. exact H.
Qed.

Lemma run_events_every_cell (P : Cell -> Prop) (G : Event -> Prop) :
  (forall ty name u now id,
      G (AddCell ty name u now) -> P (generate_cell_data ty id u now)) ->
  (forall c s, P c -> P (fst (tick_cell c s))) ->
  forall evs, Forall G evs -> every_cell P (run_events evs).
Proof.
  intros Hnew Hstep evs. unfold run_events.
  assert (every_cell P initial_state) as H0 by constructor.
  revert H0. generalize initial_state.
  induction evs as [|ev evs IH]; intros st H0 Hg; cbn; [exact H0|].
  inversion Hg; subst.
  apply IH; [|assumption].
  apply (step_every_cell P G Hnew Hstep); assumption.
Qed.

(** The registries are dictionaries: in every state the events can reach,
    no key occurs twice. *)
Lemma step_keys_unique st ev :
  NoDup (keys (cells_data st)) /\ NoDup (keys (tasks_data st)) ->
  NoDup (keys (cells_data (step st ev)))
  /\ NoDup (keys (tasks_data (step st ev))).
Proof.
  intros [Hc Ht].
  destruct ev as [ty name u now|id|name form now|id| | |s|s]; cbn.
  - unfold add_cell_form.
    destruct (mem _ (cells_data st)); cbn; split; auto.
    apply NoDup_keys_set. exact Hc.
  - unfold remove_cell. destruct (mem id (cells_data st)); cbn; split; auto.
    apply NoDup_keys_del. exact Hc.
  - unfold page_needs_cells. destruct (cells_data st) eqn:E;
      [rewrite E; split; assumption|].
    unfold add_task_form. destruct (mem _ (tasks_data st)); cbn;
      rewrite ?E; split; auto.
    apply NoDup_keys_set. exact Ht.
  - unfold page_needs_cells. destruct (cells_data st) eqn:E;
      [rewrite E; split; assumption|].
    unfold remove_task. destruct (mem _ (tasks_data st)); cbn;
      rewrite ?E; split; auto.
    apply NoDup_keys_del. exact Ht.
  - unfold page_needs_cells. destruct (cells_data st) eqn:E;
      cbn; rewrite ?E; split; assumption.
  - unfold page_needs_cells. destruct (cells_data st) eqn:E;
      cbn; rewrite ?E; split; assumption.
  - unfold page_needs_cells. destruct (cells_data st) eqn:E;
      [rewrite E; split; assumption|].
    destruct (simulation_running st); [|rewrite E; split; assumption].
    rewrite simulate_cells, (proj1 (tick_items_frame _ _)).
    rewrite (proj1 (simulate_rest st s)), E. split; assumption.
  - destruct (cells_data st) eqn:E; [rewrite E; split; assumption|].
    rewrite simulate_cells, (proj1 (tick_items_frame _ _)).
    rewrite (proj1 (simulate_rest st s)), E. split; assumption.
Qed.

Lemma run_events_keys_unique evs :
  NoDup (keys (cells_data (run_events evs)))
  /\ NoDup (keys (tasks_data (run_events evs))).
Proof.
  unfold run_events.
  assert (NoDup (keys (cells_data initial_state))
          /\ NoDup (keys (tasks_data initial_state))) as H0
    by (split; constructor).
  revert H0. generalize initial_state.
  induction evs as [|ev evs IH]; intros st H0; cbn; [exact H0|].
  apply IH. apply step_keys_unique. exact H0.
Qed.

End PassFacts.

(** * The claims *)

Section Claims.
Import PyDict Random App Props.
Import PyNum (num, NInt, NFloat).
#[local] Open Scope string_scope.

Lemma Forall_trivial {A : Type} (l : list A) : Forall (fun _ => True) l.
Proof.
  induction l; constructor; auto.
Qed.

(** The model of [round] on values whose Python results are well known:
    2.675 is below the decimal it prints as, ties on exact binary values go
    to the even digit, and the sign of a negative number rounded to zero is
    kept. *)
Example py_round_examples :
  (PyFloat.py_round 2.675 2 = 2.67
   /\ PyFloat.py_round 0.125 2 = 0.12
   /\ PyFloat.py_round 0.375 2 = 0.38
   /\ PyFloat.py_round 33.25 1 = 33.2
   /\ PyFloat.py_round 2.5 0 = 2
   /\ PyFloat.py_round (-0.001) 2 = (-0)
   /\ PyFloat.py_round 1e22 2 = 1e22
   /\ PyFloat.py_round infinity 2 = infinity)%float.
Proof.
  repeat split; reflexivity.
Qed.

(** C1.  After any sequence of events (creations, removals, start, stop and
    any number of passes, with any draws) every cell of the registry still
    has the voltage window of its chemistry and a stored voltage within
    [[min_voltage, max_voltage]].  One pass stores the old voltage plus the
    draw, clamped to the window and rounded to two decimals, and that
    rounded value is within the window. *)
Theorem voltage_within_bounds (evs : list Event) :
  every_cell (fun c => has_window c /\ voltage_in_bounds c) (run_events evs)
  /\ (forall c s, has_window c ->
        voltage (fst (tick_cell c s))
        = PyFloat.py_round
            (PyFloat.max2 (min_voltage c)
               (PyFloat.min2 (max_voltage c) (voltage c + s 0%nat)%float)) 2
        /\ voltage_in_bounds (fst (tick_cell c s))).
Proof.
  split.
  - apply (run_events_every_cell _ (fun _ => True)).
    + intros ty name u now id _. apply generated_cell_window.
    + intros c s [Hw _]. apply tick_cell_voltage. exact Hw.
    + apply Forall_trivial.
  - intros c s Hw. split.
    + apply (tick_cell_fields c s).
    + apply tick_cell_voltage. exact Hw.
Qed.

(** C2.  When the draws made at cell creation honour
    [random.uniform(25, 40)], every cell's stored temperature is within
    [[20, 60]] after any sequence of events.  A new cell's temperature is
    its draw rounded to one decimal, within [[25, 40]]; one pass stores the
    old temperature plus the draw, clamped to [[20, 60]] and rounded to one
    decimal, and that value is within [[20, 60]] whatever the draw. *)
Theorem temperature_within_bounds (evs : list Event) :
  Forall creation_draw_ok evs ->
  every_cell temperature_in_bounds (run_events evs)
  /\ (forall c s,
        temperature (fst (tick_cell c s))
        = PyNum.round
            (PyNum.max2 (NInt 20)
               (PyNum.min2 (NInt 60)
                  (PyNum.add (temperature c) (NFloat (s 1%nat))))) 1
        /\ temperature_in_bounds (fst (tick_cell c s)))
  /\ (forall ty id u now,
        honours (NInt 25) (NInt 40) u ->
        PyNum.in_range (NInt 25) (NInt 40)
          (temperature (generate_cell_data ty id u now)) = true
        /\ temperature_in_bounds (generate_cell_data ty id u now)).
Proof.
  intros Hg. split; [|split].
  - apply (run_events_every_cell _ creation_draw_ok); [| |exact Hg].
    + intros ty name u now id Hu. apply generated_cell_temperature. exact Hu.
    + intros c s _. apply tick_cell_temperature.
  - intros c s. split.
    + apply (tick_cell_fields c s).
    + apply tick_cell_temperature.
  - intros ty id u now Hu. apply generated_cell_temperature. exact Hu.
Qed.

Lemma temperature_within_bounds_witness :
  Forall creation_draw_ok
    [AddCell LFP "A1" 39.96 0; RefreshData (fun _ => 2%float);
     StartSimulation; AutoRefresh (fun _ => (-2)%float)]
  /\ every_cell temperature_in_bounds
       (run_events
          [AddCell LFP "A1" 39.96 0; RefreshData (fun _ => 2%float);
           StartSimulation; AutoRefresh (fun _ => (-2)%float)]).
Proof.
  assert (Forall creation_draw_ok
            [AddCell LFP "A1" 39.96 0; RefreshData (fun _ => 2%float);
             StartSimulation; AutoRefresh (fun _ => (-2)%float)]) as H.
  { repeat constructor. }
  split; [exact H|].
  exact (proj1 (temperature_within_bounds _ H)).
Defined.

(** C3.  After a pass, run in any state the events can reach, every cell's
    stored capacity equals [round(voltage * current, 2)] taken on the stored
    voltage and current.  The pass computes it from the voltage before
    rounding; the two agree because the current of every cell is [0.0]. *)
Theorem capacity_consistent_after_tick (evs : list Event) (s : draws) :
  every_cell capacity_consistent
    (run (simulate_real_time_data (run_events evs)) s).
Proof.
  apply (simulate_every_cell
           (fun c => has_window c /\ current c = 0%float) capacity_consistent).
  - intros c s' [Hw Hc]. apply tick_cell_capacity; assumption.
  - apply (run_events_every_cell _ (fun _ => True)).
    + intros ty name u now id _. split.
      * apply generated_cell_window.
      * apply generated_cell_capacity.
    + intros c s' [Hw Hc]. split.
      * apply tick_cell_voltage. exact Hw.
      * apply tick_cell_capacity; assumption.
    + apply Forall_trivial.
Qed.

(** The zero current is what makes the two capacities agree: on a cell
    with current 2.0, which no event produces, a pass that turns the voltage
    3.3 into 3.333 before rounding stores the capacity 6.67 next to the
    voltage 3.33, whose product with the current rounds to 6.66. *)
Example capacity_needs_zero_current :
  let c := mkCell "c" LFP 3.3 2.0 (NFloat 30) 6.6 2.8 3.6 "Active" 0 in
  let c' := fst (tick_cell c (fun _ => 0.033%float)) in
  (voltage c' = 3.33 /\ capacity c' = 6.67
   /\ PyFloat.py_round (voltage c' * current c') 2 = 6.66)%float.
Proof.
  repeat split; reflexivity.
Qed.

(** C4.  Submitting the cell form or the task form with a key, typed or
    defaulted, that the registry already holds reports that the key exists
    and leaves the whole session state as it was. *)
Theorem duplicate_key_rejected (st : State) :
  (forall ty name u now,
      mem (cell_key (cells_data st) ty name) (cells_data st) = true ->
      add_cell_form ty name u now st
      = (AlreadyExists (cell_key (cells_data st) ty name), st))
  /\ (forall name form now,
        mem (task_key (tasks_data st) name) (tasks_data st) = true ->
        add_task_form name form now st
        = (AlreadyExists (task_key (tasks_data st) name), st)).
Proof.
  split.
  - intros ty name u now H. unfold add_cell_form. rewrite H. reflexivity.
  - intros name form now H. unfold add_task_form. rewrite H. reflexivity.
Qed.

Lemma duplicate_key_rejected_witness :
  add_cell_form NMC "X" 31 2
    (run_events [AddCell LFP "X" 30 0; AddTask "T" (FormIDLE 1800) 1])
  = (AlreadyExists "X",
     run_events [AddCell LFP "X" 30 0; AddTask "T" (FormIDLE 1800) 1])
  /\ add_task_form "T" (FormIDLE 60) 3
       (run_events [AddCell LFP "X" 30 0; AddTask "T" (FormIDLE 1800) 1])
     = (AlreadyExists "T",
        run_events [AddCell LFP "X" 30 0; AddTask "T" (FormIDLE 1800) 1]).
Proof.
  split.
  - apply (proj1 (duplicate_key_rejected _)). reflexivity.
  - apply (proj2 (duplicate_key_rejected _)). reflexivity.
Defined.

(** C5, as stated, fails: a CC_CV task submitted with nothing typed in the
    "CC/CP Value" box is reported as added and is stored, with the empty
    string as its [cc_cp]; the task registry changes. *)
Lemma missing_setpoint_is_stored :
  add_task_form "T1" (FormCC_CV "" 4 1 100 3600) 1
    (run_events [AddCell LFP "A1" 30 0])
  = (Added "T1",
     with_tasks
       [("T1", make_task_data "T1" (FormCC_CV "" 4 1 100 3600) 1)]
       (run_events [AddCell LFP "A1" 30 0]))
  /\ get "cc_cp" (make_task_data "T1" (FormCC_CV "" 4 1 100 3600) 1)
     = Some (VStr "")
  /\ tasks_data
       (snd (add_task_form "T1" (FormCC_CV "" 4 1 100 3600) 1
               (run_events [AddCell LFP "A1" 30 0])))
     <> tasks_data (run_events [AddCell LFP "A1" 30 0]).
Proof.
  split; [reflexivity|]. split; [reflexivity|]. discriminate.
Qed.

(** C5, amended.  The task form validates nothing: the only submission it
    turns down is one whose key the registry already holds, and then the
    state is unchanged; any other submission is reported as added and
    appends the task to the registry.  The setpoint is stored as typed,
    whatever the string, the empty one included. *)
Theorem task_form_never_validates (name : string) (form : TaskForm)
    (now : timestamp) (st : State) :
  add_task_form name form now st
  = (if mem (task_key (tasks_data st) name) (tasks_data st)
     then (AlreadyExists (task_key (tasks_data st) name), st)
     else (Added (task_key (tasks_data st) name),
           with_tasks
             (tasks_data st
                ++ [(task_key (tasks_data st) name,
                     make_task_data (task_key (tasks_data st) name) form now)])%list
             st))
  /\ (forall id cc cv cur cap t,
        get "cc_cp" (make_task_data id (FormCC_CV cc cv cur cap t) now)
        = Some (VStr cc))
  /\ (forall id cc v cap t,
        get "cc_cp" (make_task_data id (FormCC_CD cc v cap t) now)
        = Some (VStr cc)).
Proof.
  split; [|split; intros; reflexivity].
  unfold add_task_form.
  destruct (mem (task_key (tasks_data st) name) (tasks_data st)) eqn:E;
    cbn [negb]; [reflexivity|].
  rewrite (set_new _ _ _ E). reflexivity.
Qed.

(** C6, as stated, fails for cells: the default key of the first LFP cell
    is [cell_1_lfp], with the chemistry in lower case, and no key
    [cell_1_LFP] is created. *)
Lemma default_cell_key_is_lower_case :
  fst (add_cell_form LFP "" 30 0 initial_state) = Added "cell_1_lfp"
  /\ cell_key (cells_data initial_state) LFP "" <> "cell_1_LFP"
  /\ mem "cell_1_LFP"
       (cells_data (snd (add_cell_form LFP "" 30 0 initial_state))) = false.
Proof.
  split; [reflexivity|]. split; [discriminate|reflexivity].
Qed.

(** C6, amended.  With no name typed, the cell form uses the key
    [cell_{n+1}_{chemistry}] where [n] is the size of the cell registry and
    the chemistry is written in lower case ([lfp] or [nmc]); the task form
    uses [task_{n+1}] where [n] is the size of the task registry.  The
    outcome of the submission names that key. *)
Theorem default_keys (st : State) :
  (forall ty u now,
      cell_key (cells_data st) ty ""
      = "cell_" ++ PyStr.of_nat (List.length (cells_data st) + 1) ++ "_"
          ++ match ty with LFP => "lfp" | NMC => "nmc" end
      /\ (fst (add_cell_form ty "" u now st)
          = Added (cell_key (cells_data st) ty "")
          \/ fst (add_cell_form ty "" u now st)
             = AlreadyExists (cell_key (cells_data st) ty "")))
  /\ (forall form now,
        task_key (tasks_data st) ""
        = "task_" ++ PyStr.of_nat (List.length (tasks_data st) + 1)
        /\ (fst (add_task_form "" form now st)
            = Added (task_key (tasks_data st) "")
            \/ fst (add_task_form "" form now st)
               = AlreadyExists (task_key (tasks_data st) ""))).
Proof.
  split.
  - intros ty u now. split; [destruct ty; reflexivity|].
    unfold add_cell_form.
    destruct (mem _ (cells_data st)); cbn [negb fst]; auto.
  - intros form now. split; [reflexivity|].
    unfold add_task_form.
    destruct (mem _ (tasks_data st)); cbn [negb fst]; auto.
Qed.

(** The decimal rendering of the counter in a default key. *)
Example default_key_examples :
  default_cell_id [] NMC = "cell_1_nmc"
  /\ default_task_id (repeat ("k", []) 9) = "task_10"
  /\ PyStr.of_nat 123 = "123".
Proof.
  repeat split; reflexivity.
Qed.

(** C7.  A submission of the cell form whose key is new stores, under that
    key, a cell whose fields follow from the chemistry: LFP gives voltage
    3.2 in the window [[2.8, 3.6]], NMC gives 3.6 in [[3.2, 4.0]]; the
    current is 0, the capacity is [round(voltage * current, 2)], which is
    0.0, the status is Active, and the temperature is the draw of
    [random.uniform(25, 40)] rounded to one decimal, within [[25, 40]]. *)
Theorem created_cell_fields (ty : CellType) (name : string) (u : float)
    (now : timestamp) (st : State) :
  mem (cell_key (cells_data st) ty name) (cells_data st) = false ->
  honours (NInt 25) (NInt 40) u ->
  fst (add_cell_form ty name u now st)
  = Added (cell_key (cells_data st) ty name)
  /\ exists c,
       get (cell_key (cells_data st) ty name)
         (cells_data (snd (add_cell_form ty name u now st))) = Some c
       /\ cell_id c = cell_key (cells_data st) ty name
       /\ cell_type c = ty
       /\ (voltage c, min_voltage c, max_voltage c)
          = match ty with
            | LFP => (3.2, 2.8, 3.6)
            | NMC => (3.6, 3.2, 4.0)
            end%float
       /\ current c = 0%float
       /\ capacity c = PyFloat.py_round (voltage c * current c) 2
       /\ capacity c = 0%float
       /\ status c = "Active"
       /\ created_at c = now
       /\ temperature c = NFloat (PyFloat.py_round u 1)
       /\ PyNum.in_range (NInt 25) (NInt 40) (temperature c) = true.
Proof.
  intros Hnew Hu. unfold add_cell_form. rewrite Hnew. cbn [negb fst snd].
  split; [reflexivity|].
  exists (generate_cell_data ty (cell_key (cells_data st) ty name) u now).
  split; [apply get_set_same|].
  destruct (generated_cell_temperature ty (cell_key (cells_data st) ty name)
              u now Hu) as (Ht & Hr & _).
  repeat split; try reflexivity; try (destruct ty; reflexivity); assumption.
Qed.

Lemma created_cell_fields_witness :
  fst (add_cell_form LFP "A1" 33.25 7 initial_state) = Added "A1"
  /\ exists c,
       get "A1" (cells_data (snd (add_cell_form LFP "A1" 33.25 7 initial_state)))
       = Some c
       /\ cell_id c = "A1"
       /\ cell_type c = LFP
       /\ (voltage c, min_voltage c, max_voltage c) = (3.2, 2.8, 3.6)%float
       /\ current c = 0%float
       /\ capacity c = PyFloat.py_round (voltage c * current c) 2
       /\ capacity c = 0%float
       /\ status c = "Active"
       /\ created_at c = 7
       /\ temperature c = NFloat (PyFloat.py_round 33.25 1)
       /\ PyNum.in_range (NInt 25) (NInt 40) (temperature c) = true.
Proof.
  apply (created_cell_fields LFP "A1" 33.25 7 initial_state); reflexivity.
Defined.

(** C8.  A submission of the task form whose key is new stores, under that
    key, a record whose keys are exactly those of its task type: the five
    common ones for IDLE and nothing else; with [cc_cp], [cv_voltage],
    [current] and [capacity] added for CC_CV; with [cc_cp], [voltage] and
    [capacity] added for CC_CD, which has neither [cv_voltage] nor
    [current].  The values are the ones the form delivered. *)
Theorem stored_task_fields (name : string) (form : TaskForm)
    (now : timestamp) (st : State) :
  mem (task_key (tasks_data st) name) (tasks_data st) = false ->
  exists record,
    get (task_key (tasks_data st) name)
      (tasks_data (snd (add_task_form name form now st))) = Some record
    /\ keys record = keys_of_type (form_task_type form)
    /\ match form with
       | FormIDLE t =>
           record
           = [ ("task_id", VStr (task_key (tasks_data st) name));
               ("task_type", VStr "IDLE");
               ("time_seconds", VInt t);
               ("status", VStr "Pending");
               ("created_at", VTime now) ]
           /\ get "cc_cp" record = None /\ get "cv_voltage" record = None
           /\ get "voltage" record = None /\ get "current" record = None
           /\ get "capacity" record = None
       | FormCC_CV cc cv cur cap t =>
           get "cc_cp" record = Some (VStr cc)
           /\ get "cv_voltage" record = Some (VFloat cv)
           /\ get "current" record = Some (VFloat cur)
           /\ get "capacity" record = Some (VFloat cap)
           /\ get "time_seconds" record = Some (VInt t)
           /\ get "voltage" record = None
       | FormCC_CD cc v cap t =>
           get "cc_cp" record = Some (VStr cc)
           /\ get "voltage" record = Some (VFloat v)
           /\ get "capacity" record = Some (VFloat cap)
           /\ get "time_seconds" record = Some (VInt t)
           /\ get "cv_voltage" record = None /\ get "current" record = None
       end.
Proof.
  intros Hnew. unfold add_task_form. rewrite Hnew. cbn [negb snd].
  exists (make_task_data (task_key (tasks_data st) name) form now).
  split; [apply get_set_same|].
  destruct form; repeat split; reflexivity.
Qed.

Lemma stored_task_fields_witness :
  exists record,
    get "T1"
      (tasks_data
         (snd (add_task_form "T1" (FormIDLE 1800) 5
                 (run_events [AddCell LFP "A1" 30 0])))) = Some record
    /\ keys record = base_keys
    /\ record
       = [ ("task_id", VStr "T1"); ("task_type", VStr "IDLE");
           ("time_seconds", VInt 1800); ("status", VStr "Pending");
           ("created_at", VTime 5) ]
       /\ get "cc_cp" record = None /\ get "cv_voltage" record = None
       /\ get "voltage" record = None /\ get "current" record = None
       /\ get "capacity" record = None.
Proof.
  apply (stored_task_fields "T1" (FormIDLE 1800) 5
           (run_events [AddCell LFP "A1" 30 0])).
  reflexivity.
Defined.

(** C9.  A pass assigns only the voltage, temperature and capacity of the
    cells.  It leaves the task registry, the running flag and the rest of
    the session state as they were, keeps the keys of the cell registry and
    their order, and keeps the id, chemistry, current, voltage window,
    status and creation time of every cell. *)
Theorem tick_frame (st : State) (s : draws) :
  tasks_data (run (simulate_real_time_data st) s) = tasks_data st
  /\ simulation_running (run (simulate_real_time_data st) s)
     = simulation_running st
  /\ simulation_data (run (simulate_real_time_data st) s) = simulation_data st
  /\ keys (cells_data (run (simulate_real_time_data st) s))
     = keys (cells_data st)
  /\ Forall2 same_frame (values (cells_data st))
       (values (cells_data (run (simulate_real_time_data st) s))).
Proof.
  destruct (simulate_rest st s) as (Ht & Hr & Hd).
  rewrite simulate_cells.
  destruct (tick_items_frame (cells_data st) s) as [Hk Hf].
  repeat split; assumption.
Qed.

(** C10.  Default keys are not always fresh.  After two cells are created
    with default names and the first one is removed, the registry holds
    [cell_2_lfp] alone, and a further creation with no name derives that
    same key and is turned down, the state unchanged.  The same holds of
    tasks, with [task_2]. *)
Theorem default_key_collision :
  (keys (cells_data
           (run_events
              [AddCell LFP "" 30 0; AddCell LFP "" 31 1;
               RemoveCell "cell_1_lfp"]))
   = ["cell_2_lfp"]
   /\ forall u now,
        add_cell_form LFP "" u now
          (run_events
             [AddCell LFP "" 30 0; AddCell LFP "" 31 1;
              RemoveCell "cell_1_lfp"])
        = (AlreadyExists "cell_2_lfp",
           run_events
             [AddCell LFP "" 30 0; AddCell LFP "" 31 1;
              RemoveCell "cell_1_lfp"]))
  /\ (keys (tasks_data
              (run_events
                 [AddCell LFP "" 30 0; AddTask "" (FormIDLE 1800) 1;
                  AddTask "" (FormIDLE 1800) 2; RemoveTask "task_1"]))
      = ["task_2"]
      /\ forall form now,
           add_task_form "" form now
             (run_events
                [AddCell LFP "" 30 0; AddTask "" (FormIDLE 1800) 1;
                 AddTask "" (FormIDLE 1800) 2; RemoveTask "task_1"])
           = (AlreadyExists "task_2",
              run_events
                [AddCell LFP "" 30 0; AddTask "" (FormIDLE 1800) 1;
                 AddTask "" (FormIDLE 1800) 2; RemoveTask "task_1"])).
Proof.
  split; (split; [reflexivity|intros; reflexivity]).
Qed.

End Claims.

(** * Further properties of the code *)

(** ** More on dictionaries *)

Section DictMore.
Import PyDict.
Context {V : Type}.
Implicit Types (d : dict V) (k : string) (v : V).

Lemma get_set_other k k' v d : k' <> k -> get k' (set k v d) = get k' d.
Proof.
  intros Hne. induction d as [|[k0 v0] d IH]; cbn.
  - destruct (String.eqb_spec k' k); [congruence|reflexivity].
  - destruct (String.eqb_spec k k0) as [->|Hk]; cbn.
    + destruct (String.eqb_spec k' k0); [congruence|reflexivity].
    + destruct (String.eqb k' k0); [reflexivity|exact IH].
Qed.

Lemma get_del_other k k' d : k' <> k -> get k' (del k d) = get k' d.
Proof.
  intros Hne. induction d as [|[k0 v0] d IH]; cbn; [reflexivity|].
  destruct (String.eqb_spec k k0) as [->|Hk]; cbn.
  - destruct (String.eqb_spec k' k0); [congruence|reflexivity].
  - destruct (String.eqb k' k0); [reflexivity|exact IH].
Qed.

Lemma mem_del_same k d : NoDup (keys d) -> mem k (del k d) = false.
Proof.
  induction d as [|[k0 v0] d IH]; cbn; intros H; [reflexivity|].
  inversion H as [|? ? Hnot Hrest]; subst.
  destruct (String.eqb_spec k k0) as [->|Hk]; cbn.
  - destruct (mem k0 d) eqn:E; [|reflexivity].
    apply mem_In in E. contradiction.
  - destruct (String.eqb_spec k k0); [congruence|]. apply IH. exact Hrest.
Qed.

Lemma length_del k d :
  mem k d = true -> S (List.length (del k d)) = List.length d.
Proof.
  induction d as [|[k0 v0] d IH]; cbn; [discriminate|].
  destruct (String.eqb k k0); cbn; [reflexivity|].
  intros H. rewrite (IH H). reflexivity.
Qed.

Lemma del_app_new k v d : mem k d = false -> del k (d ++ [(k, v)]) = d.
Proof.
  induction d as [|[k0 v0] d IH]; cbn.
  - rewrite String.eqb_refl. reflexivity.
  - destruct (String.eqb k k0); [discriminate|].
    intros H. rewrite (IH H). reflexivity.
Qed.

Lemma mem_app_new k v d : mem k (d ++ [(k, v)]) = true.
Proof.
  induction d as [|[k0 v0] d IH]; cbn.
  - rewrite String.eqb_refl. reflexivity.
  - destruct (String.eqb k k0); [reflexivity|exact IH].
Qed.

(** A deletion keeps the other keys, in their order. *)
Lemma keys_del k d :
  NoDup (keys d) ->
  keys (del k d) = filter (fun k' => negb (String.eqb k k')) (keys d).
Proof.
  unfold keys. induction d as [|[k0 v0] d IH]; cbn; intros H; [reflexivity|].
  inversion H as [|? ? Hnot Hrest]; subst.
  destruct (String.eqb_spec k k0) as [->|Hk]; cbn.
  - symmetry. apply forallb_filter_id. apply forallb_forall.
    intros x Hx. destruct (String.eqb_spec k0 x); [congruence|reflexivity].
  - rewrite (IH Hrest). reflexivity.
Qed.

End DictMore.

(** ** Registries: removal, persistence and round trips *)

Section RegistryFacts.
Import PyDict Random App Props Views Traces.
Import PyNum (num, NInt, NFloat).
#[local] Open Scope string_scope.

Lemma page_needs_cells_cases st k :
  page_needs_cells st k = st
  \/ (cells_data st <> [] /\ page_needs_cells st k = k st).
Proof.
  unfold page_needs_cells. destruct (cells_data st); [left; reflexivity|].
  right. split; [discriminate|reflexivity].
Qed.

(** What an event can do to the cell registry: nothing, one insertion
    under a new key, one deletion of a present key, or one pass. *)
Lemma step_cells st ev :
  cells_data (step st ev) = cells_data st
  \/ (exists ty name u now,
        ev = AddCell ty name u now
        /\ mem (cell_key (cells_data st) ty name) (cells_data st) = false
        /\ cells_data (step st ev)
           = set (cell_key (cells_data st) ty name)
               (generate_cell_data ty (cell_key (cells_data st) ty name) u now)
               (cells_data st))
  \/ (exists id,
        ev = RemoveCell id /\ mem id (cells_data st) = true
        /\ cells_data (step st ev) = del id (cells_data st))
  \/ (exists s,
        (ev = AutoRefresh s \/ ev = RefreshData s)
        /\ cells_data (step st ev) = fst (tick_items (cells_data st) s)).
Proof.
  destruct ev as [ty name u now|id|name form now|id| | |s|s]; cbn [step].
  - unfold add_cell_form.
    destruct (mem _ (cells_data st)) eqn:E; cbn [negb snd]; [left; reflexivity|].
    right. left. exists ty, name, u, now. repeat split. exact E.
  - unfold remove_cell. destruct (mem id (cells_data st)) eqn:E;
      [|left; reflexivity].
    right. right. left. exists id. repeat split. exact E.
  - left. destruct (page_needs_cells_cases st
                      (fun st => snd (add_task_form name form now st)))
      as [->|[_ ->]]; [reflexivity|].
    unfold add_task_form. destruct (mem _ (tasks_data st)); reflexivity.
  - left. destruct (page_needs_cells_cases st (remove_task id))
      as [->|[_ ->]]; [reflexivity|].
    unfold remove_task. destruct (mem _ (tasks_data st)); reflexivity.
  - left. destruct (page_needs_cells_cases st (with_running true))
      as [->|[_ ->]]; reflexivity.
  - left. destruct (page_needs_cells_cases st (with_running false))
      as [->|[_ ->]]; reflexivity.
  - destruct (page_needs_cells_cases st
                (fun st => if simulation_running st
                           then run (simulate_real_time_data st) s else st))
      as [->|[_ ->]]; [left; reflexivity|].
    destruct (simulation_running st); [|left; reflexivity].
    right. right. right. exists s. split; [left; reflexivity|].
    apply simulate_cells.
  - right. right. right. exists s. split; [right; reflexivity|].
    destruct (cells_data st) eqn:E; [rewrite E; reflexivity|].
    rewrite simulate_cells, E. reflexivity.
Qed.

(** What an event can do to the task registry: nothing, one insertion under
    a new key, or one deletion of a present key. *)
Lemma step_tasks st ev :
  tasks_data (step st ev) = tasks_data st
  \/ (exists name form now,
        ev = AddTask name form now /\ cells_data st <> []
        /\ mem (task_key (tasks_data st) name) (tasks_data st) = false
        /\ tasks_data (step st ev)
           = set (task_key (tasks_data st) name)
               (make_task_data (task_key (tasks_data st) name) form now)
               (tasks_data st))
  \/ (exists id,
        ev = RemoveTask id /\ cells_data st <> []
        /\ mem id (tasks_data st) = true
        /\ tasks_data (step st ev) = del id (tasks_data st)).
Proof.
  destruct ev as [ty name u now|id|name form now|id| | |s|s]; cbn [step].
  - left. unfold add_cell_form. destruct (mem _ (cells_data st)); reflexivity.
  - left. unfold remove_cell. destruct (mem id (cells_data st)); reflexivity.
  - destruct (page_needs_cells_cases st
                (fun st => snd (add_task_form name form now st)))
      as [->|[Hc ->]]; [left; reflexivity|].
    unfold add_task_form.
    destruct (mem _ (tasks_data st)) eqn:E; cbn [negb snd]; [left; reflexivity|].
    right. left. exists name, form, now. repeat split; assumption.
  - destruct (page_needs_cells_cases st (remove_task id))
      as [->|[Hc ->]]; [left; reflexivity|].
    unfold remove_task. destruct (mem id (tasks_data st)) eqn:E;
      [|left; reflexivity].
    right. right. exists id. repeat split; assumption.
  - left. destruct (page_needs_cells_cases st (with_running true))
      as [->|[_ ->]]; reflexivity.
  - left. destruct (page_needs_cells_cases st (with_running false))
      as [->|[_ ->]]; reflexivity.
  - left. destruct (page_needs_cells_cases st
                (fun st => if simulation_running st
                           then run (simulate_real_time_data st) s else st))
      as [->|[_ ->]]; [reflexivity|].
    destruct (simulation_running st); [|reflexivity].
    apply simulate_rest.
  - left. destruct (cells_data st); [reflexivity|]. apply simulate_rest.
Qed.

(** X1.  Pressing the Remove button of a cell that is in the registry
    takes that key out, makes the registry one smaller, keeps the other
    keys in their order with their cells, and touches neither the tasks nor
    the running flag. *)
Theorem remove_cell_effect (evs : list Event) (k : string) :
  mem k (cells_data (run_events evs)) = true ->
  mem k (cells_data (step (run_events evs) (RemoveCell k))) = false
  /\ S (total_cells (step (run_events evs) (RemoveCell k)))
     = total_cells (run_events evs)
  /\ keys (cells_data (step (run_events evs) (RemoveCell k)))
     = filter (fun k' => negb (String.eqb k k'))
         (keys (cells_data (run_events evs)))
  /\ (forall k', k' <> k ->
        get k' (cells_data (step (run_events evs) (RemoveCell k)))
        = get k' (cells_data (run_events evs)))
  /\ tasks_data (step (run_events evs) (RemoveCell k))
     = tasks_data (run_events evs)
  /\ simulation_running (step (run_events evs) (RemoveCell k))
     = simulation_running (run_events evs).
Proof.
  intros Hk. destruct (run_events_keys_unique evs) as [Hc _].
  cbn [step]. unfold remove_cell, total_cells. rewrite Hk. cbn.
  split; [apply mem_del_same; exact Hc|].
  split; [apply length_del; exact Hk|].
  split; [apply keys_del; exact Hc|].
  split; [intros k' Hne; apply get_del_other; exact Hne|].
  split; reflexivity.
Qed.

Lemma remove_cell_effect_witness :
  mem "b" (cells_data
             (step (run_events [AddCell LFP "a" 30 0; AddCell NMC "b" 31 1;
                                AddCell LFP "c" 32 2])
                (RemoveCell "b"))) = false
  /\ keys (cells_data
             (step (run_events [AddCell LFP "a" 30 0; AddCell NMC "b" 31 1;
                                AddCell LFP "c" 32 2])
                (RemoveCell "b"))) = ["a"; "c"].
Proof.
  pose proof (remove_cell_effect
                [AddCell LFP "a" 30 0; AddCell NMC "b" 31 1;
                 AddCell LFP "c" 32 2] "b" eq_refl) as H.
  split; [exact (proj1 H)|exact (proj1 (proj2 (proj2 H)))].
Defined.

(** X2.  Pressing the Remove button of a task that is in the registry,
    while at least one cell is configured, takes that key out, makes the
    registry one smaller and keeps the other tasks as they are; with no
    cell configured the page stops before its buttons and the task stays. *)
Theorem remove_task_effect (evs : list Event) (k : string) :
  mem k (tasks_data (run_events evs)) = true ->
  match cells_data (run_events evs) with
  | [] => step (run_events evs) (RemoveTask k) = run_events evs
  | _ :: _ =>
      mem k (tasks_data (step (run_events evs) (RemoveTask k))) = false
      /\ S (total_tasks (step (run_events evs) (RemoveTask k)))
         = total_tasks (run_events evs)
      /\ (forall k', k' <> k ->
            get k' (tasks_data (step (run_events evs) (RemoveTask k)))
            = get k' (tasks_data (run_events evs)))
      /\ cells_data (step (run_events evs) (RemoveTask k))
         = cells_data (run_events evs)
  end.
Proof.
  intros Hk. destruct (run_events_keys_unique evs) as [_ Ht].
  cbn [step]. unfold page_needs_cells, remove_task, total_tasks.
  destruct (cells_data (run_events evs)) as [|kc rest] eqn:E; [reflexivity|].
  rewrite Hk. cbn.
  split; [apply mem_del_same; exact Ht|].
  split; [apply length_del; exact Hk|].
  split; [intros k' Hne; apply get_del_other; exact Hne|exact E].
Qed.

Lemma remove_task_effect_witness :
  step (run_events [AddCell LFP "a" 30 0; AddTask "t" (FormIDLE 60) 1;
                    RemoveCell "a"])
    (RemoveTask "t")
  = run_events [AddCell LFP "a" 30 0; AddTask "t" (FormIDLE 60) 1;
                RemoveCell "a"].
Proof.
  exact (remove_task_effect
           [AddCell LFP "a" 30 0; AddTask "t" (FormIDLE 60) 1; RemoveCell "a"]
           "t" eq_refl).
Defined.

(** X3.  Creation and removal undo each other: adding a cell under a key
    the registry does not hold and pressing its Remove button gives the
    state back, and so does adding and removing a task while a cell is
    configured. *)
Theorem add_then_remove (st : State) :
  (forall ty name u now,
      mem (cell_key (cells_data st) ty name) (cells_data st) = false ->
      step (step st (AddCell ty name u now))
        (RemoveCell (cell_key (cells_data st) ty name)) = st)
  /\ (forall name form now,
        cells_data st <> [] ->
        mem (task_key (tasks_data st) name) (tasks_data st) = false ->
        step (step st (AddTask name form now))
          (RemoveTask (task_key (tasks_data st) name)) = st).
Proof.
  split.
  - intros ty name u now Hnew. cbn [step]. unfold add_cell_form.
    rewrite Hnew. cbn [negb snd]. unfold remove_cell. cbn [cells_data with_cells].
    rewrite (set_new _ _ _ Hnew), mem_app_new, (del_app_new _ _ _ Hnew).
    destruct st; reflexivity.
  - intros name form now Hc Hnew. cbn [step]. unfold page_needs_cells.
    destruct (cells_data st) as [|kc rest] eqn:E; [congruence|].
    unfold add_task_form. rewrite Hnew. cbn [negb snd cells_data with_tasks].
    rewrite E. unfold remove_task. cbn [tasks_data with_tasks].
    rewrite (set_new _ _ _ Hnew), mem_app_new, (del_app_new _ _ _ Hnew).
    destruct st; cbn in *. rewrite E. reflexivity.
Qed.

Lemma add_then_remove_witness :
  step (step (run_events [AddCell LFP "a" 30 0]) (AddCell NMC "" 31 1))
    (RemoveCell "cell_2_nmc")
  = run_events [AddCell LFP "a" 30 0]
  /\ step (step (run_events [AddCell LFP "a" 30 0])
             (AddTask "" (FormCC_CD "5A" 3 100 3600) 2))
       (RemoveTask "task_1")
     = run_events [AddCell LFP "a" 30 0].
Proof.
  split.
  - exact (proj1 (add_then_remove (run_events [AddCell LFP "a" 30 0]))
             NMC "" 31%float 1 eq_refl).
  - apply (proj2 (add_then_remove (run_events [AddCell LFP "a" 30 0]))
             "" (FormCC_CD "5A" 3 100 3600) 2); [discriminate|reflexivity].
Defined.

Lemma get_tick_items k items s c :
  get k items = Some c ->
  exists c', get k (fst (tick_items items s)) = Some c' /\ same_frame c c'.
Proof.
  revert s. induction items as [|[k0 c0] items IH]; intros s; [discriminate|].
  rewrite tick_items_cons. cbn [get].
  destruct (String.eqb k k0).
  - intros [= <-]. exists (fst (tick_cell c0 s)).
    split; [reflexivity|apply (tick_cell_fields c0 s)].
  - intros H. apply IH. exact H.
Qed.

Lemma same_frame_refl c : same_frame c c.
Proof.
  unfold same_frame. repeat split; reflexivity.
Qed.

(** X4.  A stored cell is never overwritten or dropped by anything but its
    own Remove button: after any other event it is still stored under its
    key, with the same id, chemistry, current, voltage window, status and
    creation time.  A stored task stays exactly as it is. *)
Theorem entries_persist (st : State) (ev : Event) (k : string) :
  (forall c,
      get k (cells_data st) = Some c -> removes_cell k ev = false ->
      exists c', get k (cells_data (step st ev)) = Some c' /\ same_frame c c')
  /\ (forall t,
        get k (tasks_data st) = Some t -> removes_task k ev = false ->
        get k (tasks_data (step st ev)) = Some t).
Proof.
  split.
  - intros c Hget Hev.
    destruct (step_cells st ev)
      as [->|[(ty & name & u & now & -> & Hnew & ->)
             |[(id & -> & Hin & ->)|(s & _ & ->)]]].
    + exists c. split; [exact Hget|apply same_frame_refl].
    + exists c. split; [|apply same_frame_refl].
      rewrite get_set_other; [exact Hget|].
      intros ->.
      assert (mem (cell_key (cells_data st) ty name) (cells_data st) = true)
        by (apply mem_get; eauto).
      congruence.
    + exists c. split; [|apply same_frame_refl].
      rewrite get_del_other; [exact Hget|].
      cbn in Hev. intros ->. rewrite String.eqb_refl in Hev. discriminate.
    + apply get_tick_items. exact Hget.
  - intros t Hget Hev.
    destruct (step_tasks st ev)
      as [->|[(name & form & now & -> & _ & Hnew & ->)
             |(id & -> & _ & Hin & ->)]].
    + exact Hget.
    + rewrite get_set_other; [exact Hget|].
      intros ->.
      assert (mem (task_key (tasks_data st) name) (tasks_data st) = true)
        by (apply mem_get; eauto).
      congruence.
    + rewrite get_del_other; [exact Hget|].
      cbn in Hev. intros ->. rewrite String.eqb_refl in Hev. discriminate.
Qed.

Lemma entries_persist_witness :
  (exists c',
      get "a"
        (cells_data
           (step (run_events [AddCell LFP "a" 30 0; AddTask "t" (FormIDLE 60) 1])
              (AddCell NMC "a" 35 2))) = Some c'
      /\ same_frame (generate_cell_data LFP "a" 30 0) c')
  /\ get "t"
       (tasks_data
          (step (run_events [AddCell LFP "a" 30 0; AddTask "t" (FormIDLE 60) 1])
             (RefreshData (fun _ => 1%float))))
     = Some (make_task_data "t" (FormIDLE 60) 1).
Proof.
  split.
  - apply (proj1 (entries_persist
                    (run_events [AddCell LFP "a" 30 0; AddTask "t" (FormIDLE 60) 1])
                    (AddCell NMC "a" 35 2) "a")); reflexivity.
  - apply (proj2 (entries_persist
                    (run_events [AddCell LFP "a" 30 0; AddTask "t" (FormIDLE 60) 1])
                    (RefreshData (fun _ => 1%float)) "t")); reflexivity.
Defined.

End RegistryFacts.

(** ** Invariants of the registries and the pages' counts *)

Section RegistryInvariants.
Import PyDict Random App Props Views Traces.
Import PyNum (num, NInt, NFloat).
#[local] Open Scope string_scope.

Lemma Forall_items_set {V : Type} (P : string * V -> Prop) k v (d : dict V) :
  P (k, v) -> Forall P d -> Forall P (set k v d).
Proof.
  intros Hv. induction d as [|[k' v'] d IH]; cbn; intros H.
  - constructor; [exact Hv|constructor].
  - inversion H; subst.
    destruct (String.eqb_spec k k') as [->|Hne]; constructor; auto.
Qed.

Lemma Forall_items_del {V : Type} (P : string * V -> Prop) k (d : dict V) :
  Forall P d -> Forall P (del k d).
Proof.
  induction d as [|[k' v'] d IH]; cbn; intros H; [constructor|].
  inversion H; subst. destruct (String.eqb k k'); [assumption|].
  constructor; auto.
Qed.

Lemma tick_items_entries items s :
  Forall cell_entry_ok items -> Forall cell_entry_ok (fst (tick_items items s)).
Proof.
  revert s. induction items as [|[k c] items IH]; intros s H.
  - constructor.
  - rewrite tick_items_cons. inversion H as [|? ? Hc Hrest]; subst.
    constructor; [|apply IH; exact Hrest].
    unfold cell_entry_ok in *. cbn [fst snd] in *.
    destruct (tick_cell_fields c s) as (_ & _ & _ & Hf & _).
    destruct Hf as (Hid & _). congruence.
Qed.

Lemma made_task_entry_ok key form now :
  task_entry_ok (key, make_task_data key form now).
Proof.
  unfold task_entry_ok. cbn [fst snd].
  split; [destruct form; reflexivity|].
  split; [destruct form; reflexivity|].
  exists (form_task_type form). destruct form; split; reflexivity.
Qed.

Lemma step_entries st ev :
  Forall cell_entry_ok (cells_data st) /\ Forall task_entry_ok (tasks_data st) ->
  Forall cell_entry_ok (cells_data (step st ev))
  /\ Forall task_entry_ok (tasks_data (step st ev)).
Proof.
  intros [Hc Ht]. split.
  - destruct (step_cells st ev)
      as [->|[(ty & name & u & now & _ & _ & ->)
             |[(id & _ & _ & ->)|(s & _ & ->)]]].
    + exact Hc.
    + apply Forall_items_set; [reflexivity|exact Hc].
    + apply Forall_items_del. exact Hc.
    + apply tick_items_entries. exact Hc.
  - destruct (step_tasks st ev)
      as [->|[(name & form & now & _ & _ & _ & ->)|(id & _ & _ & _ & ->)]].
    + exact Ht.
    + apply Forall_items_set; [apply made_task_entry_ok|exact Ht].
    + apply Forall_items_del. exact Ht.
Qed.

(** X5.  In every state the events can reach, each cell is stored under its
    own [cell_id], and each task is stored under its own [task_id], is
    still Pending, and has exactly the keys of its [task_type]. *)
Theorem entries_keep_their_ids (evs : list Event) :
  Forall cell_entry_ok (cells_data (run_events evs))
  /\ Forall task_entry_ok (tasks_data (run_events evs)).
Proof.
  unfold run_events.
  assert (Forall cell_entry_ok (cells_data initial_state)
          /\ Forall task_entry_ok (tasks_data initial_state)) as H0
    by (split; constructor).
  revert H0. generalize initial_state.
  induction evs as [|ev evs IH]; intros st H0; cbn [fold_left]; [exact H0|].
  apply IH. apply step_entries. exact H0.
Qed.

Lemma count_cell_type_cons t k c (d : dict Cell) :
  count_cell_type t ((k, c) :: d)
  = ((if cell_type_eqb (cell_type c) t then 1 else 0) + count_cell_type t d)%nat.
Proof.
  unfold count_cell_type. cbn [values map snd filter].
  destruct (cell_type_eqb (cell_type c) t); reflexivity.
Qed.

Lemma count_cell_type_app t (d1 d2 : dict Cell) :
  count_cell_type t (d1 ++ d2)%list
  = (count_cell_type t d1 + count_cell_type t d2)%nat.
Proof.
  induction d1 as [|[k c] d1 IH]; [reflexivity|].
  cbn [app]. rewrite !count_cell_type_cons, IH. lia.
Qed.

Lemma count_cell_type_tick t items s :
  count_cell_type t (fst (tick_items items s)) = count_cell_type t items.
Proof.
  revert s. induction items as [|[k c] items IH]; intros s; [reflexivity|].
  rewrite tick_items_cons, !count_cell_type_cons, IH.
  destruct (tick_cell_fields c s) as (_ & _ & _ & Hf & _).
  destruct Hf as (_ & -> & _). reflexivity.
Qed.

(** X6.  The two chemistry counts of the home page and of the export add
    up to the number of cells; a pass changes neither; a cell creation adds
    one to the count of its chemistry when the key is new and nothing
    otherwise, and leaves the other count alone. *)
Theorem chemistry_counts (st : State) :
  (lfp_count st + nmc_count st = total_cells st)%nat
  /\ (forall s,
        lfp_count (run (simulate_real_time_data st) s) = lfp_count st
        /\ nmc_count (run (simulate_real_time_data st) s) = nmc_count st)
  /\ (forall ty t name u now,
        count_cell_type t (cells_data (step st (AddCell ty name u now)))
        = if mem (cell_key (cells_data st) ty name) (cells_data st)
          then count_cell_type t (cells_data st)
          else ((if cell_type_eqb ty t then 1 else 0)
                + count_cell_type t (cells_data st))%nat).
Proof.
  split; [|split].
  - unfold lfp_count, nmc_count, total_cells.
    induction (cells_data st) as [|[k c] d IH]; [reflexivity|].
    rewrite !count_cell_type_cons. cbn [List.length].
    destruct (cell_type c); cbn [cell_type_eqb]; lia.
  - intros s. unfold lfp_count, nmc_count. rewrite simulate_cells.
    split; apply count_cell_type_tick.
  - intros ty t name u now. cbn [step]. unfold add_cell_form.
    destruct (mem _ (cells_data st)) eqn:E; cbn [negb snd]; [reflexivity|].
    cbn [cells_data with_cells]. rewrite (set_new _ _ _ E).
    rewrite count_cell_type_app, count_cell_type_cons.
    destruct ty; cbn [generate_cell_data cell_type];
      unfold count_cell_type; cbn; lia.
Qed.

(** X7.  With no cell configured, only a cell creation changes the state:
    removals find nothing, the task page and the analysis page stop before
    their widgets, and a refresh has nothing to update.  In particular a
    simulation left running when the last cell was removed cannot be
    stopped. *)
Theorem without_cells_only_creation (st : State) (ev : Event) :
  cells_data st = [] -> is_add_cell ev = false -> step st ev = st.
Proof.
  intros Hc Hev.
  destruct ev as [ty name u now|id|name form now|id| | |s|s];
    try discriminate; cbn [step]; unfold page_needs_cells, remove_cell;
    rewrite Hc; reflexivity.
Qed.

Lemma without_cells_only_creation_witness :
  simulation_running
    (run_events [AddCell LFP "a" 30 0; StartSimulation; RemoveCell "a"]) = true
  /\ step (run_events [AddCell LFP "a" 30 0; StartSimulation; RemoveCell "a"])
       StopSimulation
     = run_events [AddCell LFP "a" 30 0; StartSimulation; RemoveCell "a"].
Proof.
  split; [reflexivity|].
  apply (without_cells_only_creation
           (run_events [AddCell LFP "a" 30 0; StartSimulation; RemoveCell "a"])
           StopSimulation); reflexivity.
Defined.

End RegistryInvariants.

(** ** The pass: draws, clamping, and the pages around it *)

Section PassMore.
Import PyDict Random App Props Views Traces.
Import PyNum (num, NInt, NFloat).
#[local] Open Scope string_scope.

Lemma tick_cell_ext c (s1 s2 : draws) :
  s1 0%nat = s2 0%nat -> s1 1%nat = s2 1%nat ->
  fst (tick_cell c s1) = fst (tick_cell c s2).
Proof.
  intros H0 H1. unfold tick_cell, bind, uniform, ret. cbn [fst].
  rewrite H0, H1. reflexivity.
Qed.

Lemma tick_items_cons_rest k c items s :
  snd (tick_items ((k, c) :: items) s)
  = snd (tick_items items (snd (tick_cell c s))).
Proof.
  cbn [tick_items]. unfold bind, ret.
  destruct (tick_cell c s) as [c' s'].
  cbn [fst snd]. destruct (tick_items items s') as [rest' s'']. reflexivity.
Qed.

(** X8.  A pass over [n] cells consumes exactly [2 n] draws, and the cell
    at position [i] is updated from the draws [2 i] and [2 i + 1] alone:
    its new values do not depend on the other cells or on their draws. *)
Theorem pass_draws (items : dict Cell) (s : draws) :
  (forall n, snd (tick_items items s) n = s (2 * List.length items + n)%nat)
  /\ (forall i k c,
        nth_error items i = Some (k, c) ->
        nth_error (fst (tick_items items s)) i
        = Some (k, fst (tick_cell c (fun n => s (2 * i + n)%nat)))).
Proof.
  split.
  - revert s. induction items as [|[k c] items IH]; intros s n.
    + reflexivity.
    + rewrite tick_items_cons_rest, IH. cbn [List.length].
      change (snd (tick_cell c s) (2 * List.length items + n)%nat)
        with (s (S (S (2 * List.length items + n)))).
      f_equal. lia.
  - revert s. induction items as [|[k0 c0] items IH]; intros s i k c H.
    + destruct i; discriminate.
    + rewrite tick_items_cons. destruct i as [|i]; cbn [nth_error] in *.
      * injection H as <- <-. reflexivity.
      * rewrite (IH _ i k c H). f_equal. f_equal.
        apply tick_cell_ext.
        -- change (snd (tick_cell c0 s) (2 * i + 0)%nat)
             with (s (S (S (2 * i + 0)))). f_equal. lia.
        -- change (snd (tick_cell c0 s) (2 * i + 1)%nat)
             with (s (S (S (2 * i + 1)))). f_equal. lia.
Qed.

(** X9.  The clamp saturates.  For a cell with the window of its
    chemistry, the stored voltage is [max_voltage] itself when the perturbed
    voltage is not below it (also when it is NaN), [min_voltage] itself when
    it is not above that, and the perturbed voltage rounded to two decimals
    otherwise.  The stored temperature is the int [60], the int [20], or the
    perturbed temperature rounded to one decimal, in the same way. *)
Theorem clamp_saturates (c : Cell) (s : draws) :
  has_window c ->
  voltage (fst (tick_cell c s))
  = (if (voltage c + s 0%nat <? max_voltage c)%float
     then if (min_voltage c <? voltage c + s 0%nat)%float
          then PyFloat.py_round (voltage c + s 0%nat) 2
          else min_voltage c
     else max_voltage c)
  /\ temperature (fst (tick_cell c s))
     = (if (PyNum.to_float (temperature c) + s 1%nat <? 60)%float
        then if (20 <? PyNum.to_float (temperature c) + s 1%nat)%float
             then NFloat
                    (PyFloat.py_round
                       (PyNum.to_float (temperature c) + s 1%nat) 1)
             else NInt 20
        else NInt 60).
Proof.
  intros Hw. destruct (tick_cell_fields c s) as (-> & -> & _). split.
  - unfold PyFloat.max2, PyFloat.min2.
    destruct (window_cases c Hw) as [[-> ->]|[-> ->]];
      destruct (voltage c + s 0%nat <? _)%float;
      try destruct (_ <? voltage c + s 0%nat)%float; reflexivity.
  - assert (PyNum.add (temperature c) (NFloat (s 1%nat))
            = NFloat (PyNum.to_float (temperature c) + s 1%nat)%float) as ->
      by (destruct (temperature c); reflexivity).
    unfold PyNum.min2, PyNum.max2.
    change (PyNum.lt (NFloat (PyNum.to_float (temperature c) + s 1%nat)%float)
              (NInt 60))
      with ((PyNum.to_float (temperature c) + s 1%nat) <? 60)%float.
    destruct ((PyNum.to_float (temperature c) + s 1%nat) <? 60)%float;
      [|reflexivity].
    change (PyNum.lt (NInt 20)
              (NFloat (PyNum.to_float (temperature c) + s 1%nat)%float))
      with (20 <? (PyNum.to_float (temperature c) + s 1%nat))%float.
    destruct (20 <? (PyNum.to_float (temperature c) + s 1%nat))%float;
      reflexivity.
Qed.

Lemma clamp_saturates_witness :
  voltage (fst (tick_cell (generate_cell_data NMC "a" 39.9 0)
                 (fun n => match n with O => nan | _ => 2 end)))%float
  = 4%float
  /\ temperature (fst (tick_cell (generate_cell_data NMC "a" 39.9 0)
                        (fun n => match n with O => nan | _ => 25 end)))%float
     = NInt 60.
Proof.
  split.
  - exact (proj1 (clamp_saturates (generate_cell_data NMC "a" 39.9 0)
                    (fun n => match n with O => nan | _ => 2 end)%float
                    eq_refl)).
  - exact (proj2 (clamp_saturates (generate_cell_data NMC "a" 39.9 0)
                    (fun n => match n with O => nan | _ => 25 end)%float
                    eq_refl)).
Defined.

(** X10.  The live metrics never index past their columns: with [n] cells
    there are [min(4, n)] columns, and the cell at position [idx < n] goes
    to column [idx % 4], which is one of them. *)
Theorem metric_column_in_range (st : State) (idx : nat) :
  (idx < total_cells st)%nat -> (metric_column idx < metric_columns st)%nat.
Proof.
  unfold total_cells, metric_column, metric_columns. intros H.
  destruct (Nat.le_gt_cases 4 (List.length (cells_data st))) as [Hn|Hn].
  - rewrite Nat.min_l by exact Hn. apply Nat.mod_upper_bound. discriminate.
  - rewrite Nat.min_r by lia. rewrite Nat.mod_small by lia. exact H.
Qed.

Lemma metric_column_in_range_witness :
  (metric_column 1
   < metric_columns (run_events [AddCell LFP "" 30 0; AddCell NMC "" 31 1]))%nat.
Proof.
  apply (metric_column_in_range
           (run_events [AddCell LFP "" 30 0; AddCell NMC "" 31 1]) 1).
  cbn. lia.
Defined.

(** X11.  The running flag changes only through the Start and Stop
    buttons: creations, removals and passes leave it as it is.  Start and
    Stop are idempotent, and an automatic refresh while the simulation is
    stopped changes nothing. *)
Theorem running_flag (st : State) :
  (forall ev, is_start_stop ev = false ->
     simulation_running (step st ev) = simulation_running st)
  /\ step (step st StartSimulation) StartSimulation = step st StartSimulation
  /\ step (step st StopSimulation) StopSimulation = step st StopSimulation
  /\ (forall s, simulation_running st = false -> step st (AutoRefresh s) = st).
Proof.
  split; [|split; [|split]].
  - intros ev Hev.
    destruct ev as [ty name u now|id|name form now|id| | |s|s];
      try discriminate; cbn [step].
    + unfold add_cell_form. destruct (mem _ (cells_data st)); reflexivity.
    + unfold remove_cell. destruct (mem _ (cells_data st)); reflexivity.
    + destruct (page_needs_cells_cases st
                  (fun st => snd (add_task_form name form now st)))
        as [->|[_ ->]]; [reflexivity|].
      unfold add_task_form. destruct (mem _ (tasks_data st)); reflexivity.
    + destruct (page_needs_cells_cases st (remove_task id))
        as [->|[_ ->]]; [reflexivity|].
      unfold remove_task. destruct (mem _ (tasks_data st)); reflexivity.
    + destruct (page_needs_cells_cases st
                  (fun st => if simulation_running st
                             then run (simulate_real_time_data st) s else st))
        as [->|[_ ->]]; [reflexivity|].
      destruct (simulation_running st) eqn:E; [|exact E].
      rewrite (proj1 (proj2 (simulate_rest st s))). exact E.
    + destruct (cells_data st); [reflexivity|].
      apply (proj1 (proj2 (simulate_rest st s))).
  - cbn [step]. unfold page_needs_cells.
    destruct (cells_data st) eqn:E; [rewrite E; reflexivity|].
    cbn. rewrite E. reflexivity.
  - cbn [step]. unfold page_needs_cells.
    destruct (cells_data st) eqn:E; [rewrite E; reflexivity|].
    cbn. rewrite E. reflexivity.
  - intros s H. cbn [step]. unfold page_needs_cells.
    destruct (cells_data st); [reflexivity|]. rewrite H. reflexivity.
Qed.

Lemma running_flag_witness :
  simulation_running
    (step (run_events [AddCell LFP "a" 30 0; StartSimulation])
       (RefreshData (fun _ => 1%float))) = true
  /\ step (run_events [AddCell LFP "a" 30 0]) (AutoRefresh (fun _ => 1%float))
     = run_events [AddCell LFP "a" 30 0].
Proof.
  split.
  - apply (proj1 (running_flag
                    (run_events [AddCell LFP "a" 30 0; StartSimulation]))
             (RefreshData (fun _ => 1%float))).
    reflexivity.
  - apply (proj2 (proj2 (proj2 (running_flag (run_events [AddCell LFP "a" 30 0]))))).
    reflexivity.
Defined.

Lemma pass_draws_witness :
  nth_error
    (fst (tick_items
            (cells_data (run_events [AddCell LFP "a" 30 0; AddCell NMC "b" 31 1]))
            (fun n => PyFloat.of_int (Z.of_nat n))))
    1
  = Some ("b",
          fst (tick_cell (generate_cell_data NMC "b" 31 1)
                 (fun n => PyFloat.of_int (Z.of_nat (2 * 1 + n))))).
Proof.
  apply (proj2 (pass_draws
                  (cells_data
                     (run_events [AddCell LFP "a" 30 0; AddCell NMC "b" 31 1]))
                  (fun n => PyFloat.of_int (Z.of_nat n)))).
  reflexivity.
Defined.

End PassMore.

(** ** The values a pass stores *)

Section StoredValues.
Import PyDict Random App Props Views Traces.
Import PyNum (num, NInt, NFloat).
Import PyFloat.

Lemma sf_same_eq a b : sf_same a b = true -> a = b.
Proof.
  destruct a as [s|s| |s m e], b as [t|t| |t n f]; cbn; try discriminate;
    try reflexivity.
  - intros H. apply Bool.eqb_prop in H. congruence.
  - intros H. apply Bool.eqb_prop in H. congruence.
  - intros H. apply andb_prop in H. destruct H as [H He].
    apply andb_prop in H. destruct H as [Hs Hm].
    apply Bool.eqb_prop in Hs. apply Pos.eqb_eq in Hm. apply Z.eqb_eq in He.
    congruence.
Qed.

Lemma round_fixed_table_spec n dlo count d :
  round_fixed_table n dlo count = true ->
  Zpos dlo <= Zpos d <= Zpos dlo + Z.of_nat count ->
  py_round (of_decimal false d n) n = of_decimal false d n.
Proof.
  unfold round_fixed_table. intros H Hd. apply andb_prop in H.
  destruct H as [H H0]. apply Prim2SF_inj. apply sf_same_eq.
  destruct (Pos.eq_dec d dlo) as [->|Hne]; [exact H0|].
  rewrite forallb_forall in H.
  specialize (H (Pos.to_nat (d - dlo))).
  assert (Zpos dlo < Zpos d) by lia.
  rewrite Pos2Nat.id in H.
  replace (dlo + (d - dlo))%positive with d in H by lia.
  apply H. apply in_seq. lia.
Qed.

Lemma round_LFP_grid x :
  in_range 2.8 3.6 x = true -> on_grid 280 360 2 (py_round x 2).
Proof.
  intros H. apply andb_prop in H. destruct H as [Hlo Hhi].
  destruct (between_finite 2.8 3.6 x 6305039478318694 (-51) 8106479329266893 (-51))
    as (m & e & Ex & Hm & Hl & Hh);
    [reflexivity | reflexivity | lia | exact Hlo | exact Hhi |].
  apply (py_round_finite x m e 2 280 360 Ex); [lia|].
  assert (e = -51) as -> by lia. scaled_bounds.
Qed.

Lemma round_NMC_grid x :
  in_range 3.2 4.0 x = true -> on_grid 320 400 2 (py_round x 2).
Proof.
  intros H. apply andb_prop in H. destruct H as [Hlo Hhi].
  destruct (between_finite 3.2 4.0 x 7205759403792794 (-51) 4503599627370496 (-50))
    as (m & e & Ex & Hm & Hl & Hh);
    [reflexivity | reflexivity | lia | exact Hlo | exact Hhi |].
  apply (py_round_finite x m e 2 320 400 Ex); [lia|].
  assert (e = -51 \/ e = -50) as [-> | ->] by lia; scaled_bounds.
Qed.

Lemma round_temperature_grid x :
  in_range 20 60 x = true -> on_grid 200 600 1 (py_round x 1).
Proof.
  intros H. apply andb_prop in H. destruct H as [Hlo Hhi].
  destruct (between_finite 20 60 x 5629499534213120 (-48) 8444249301319680 (-47))
    as (m & e & Ex & Hm & Hl & Hh);
    [reflexivity | reflexivity | lia | exact Hlo | exact Hhi |].
  apply (py_round_finite x m e 1 200 600 Ex); [lia|].
  assert (e = -48 \/ e = -47) as [-> | ->] by lia; scaled_bounds.
Qed.

Lemma round_creation_grid u :
  in_range 25 40 u = true -> on_grid 250 400 1 (py_round u 1).
Proof.
  intros H. apply andb_prop in H. destruct H as [Hlo Hhi].
  destruct (between_finite 25 40 u 7036874417766400 (-48) 5629499534213120 (-47))
    as (m & e & Ex & Hm & Hl & Hh);
    [reflexivity | reflexivity | lia | exact Hlo | exact Hhi |].
  apply (py_round_finite u m e 1 250 400 Ex); [lia|].
  assert (e = -48 \/ e = -47) as [-> | ->] by lia; scaled_bounds.
Qed.

Lemma on_grid_weaken lo hi lo' hi' n x :
  lo' <= lo -> hi <= hi' -> on_grid lo hi n x -> on_grid lo' hi' n x.
Proof.
  intros Hl Hh (d & Hd & E). exists d. split; [lia|exact E].
Qed.

Lemma grid_voltage_fixed x :
  on_grid 280 400 2 x -> py_round x 2 = x.
Proof.
  intros (d & Hd & ->).
  apply (round_fixed_table_spec 2 280 120 d); [vm_compute; reflexivity|lia].
Qed.

Lemma grid_temperature_fixed x :
  on_grid 200 600 1 x -> py_round x 1 = x.
Proof.
  intros (d & Hd & ->).
  apply (round_fixed_table_spec 1 200 400 d); [vm_compute; reflexivity|lia].
Qed.

Lemma tick_cell_voltage_grid c s :
  has_window c ->
  has_window (fst (tick_cell c s)) /\ voltage_on_grid (fst (tick_cell c s)).
Proof.
  intros Hw. split; [exact Hw|].
  unfold voltage_on_grid.
  destruct (tick_cell_fields c s) as (Hv & _ & _ & Hf & _).
  destruct Hf as (_ & Hty & _). rewrite Hv, Hty.
  pose proof Hw as Hw'. unfold has_window, window in Hw'.
  destruct (cell_type c); injection Hw' as -> ->.
  - apply round_LFP_grid, clamp_in_range. reflexivity.
  - apply round_NMC_grid, clamp_in_range. reflexivity.
Qed.

Lemma tick_cell_temperature_grid c s :
  temperature_on_grid (fst (tick_cell c s)).
Proof.
  unfold temperature_on_grid.
  destruct (tick_cell_fields c s) as (_ & -> & _).
  set (y := PyNum.to_float (temperature c)).
  assert (PyNum.add (temperature c) (NFloat (s 1%nat))
          = NFloat (y + s 1%nat)%float) as ->
    by (subst y; destruct (temperature c); reflexivity).
  unfold PyNum.min2, PyNum.max2.
  change (PyNum.lt (NFloat (y + s 1%nat)%float) (NInt 60))
    with ((y + s 1%nat) <? 60)%float.
  destruct ((y + s 1%nat) <? 60)%float eqn:Ehi; [|right; reflexivity].
  change (PyNum.lt (NInt 20) (NFloat (y + s 1%nat)%float))
    with (20 <? (y + s 1%nat))%float.
  destruct (20 <? (y + s 1%nat))%float eqn:Elo; [|left; reflexivity].
  cbn [PyNum.round]. apply round_temperature_grid.
  unfold in_range. rewrite (ltb_leb _ _ Elo), (ltb_leb _ _ Ehi). reflexivity.
Qed.

(** X12.  Every stored voltage is a whole number of hundredths of a volt
    inside the window of its chemistry (from 2.80 to 3.60 for LFP, from
    3.20 to 4.00 for NMC): the float nearest to that decimal.  Rounding it
    to two decimals again gives it back. *)
Theorem stored_voltage_two_decimals (evs : list Event) :
  every_cell
    (fun c => voltage_on_grid c /\ py_round (voltage c) 2 = voltage c)
    (run_events evs).
Proof.
  assert (every_cell (fun c => has_window c /\ voltage_on_grid c)
            (run_events evs)) as H.
  { apply (run_events_every_cell _ (fun _ => True)).
    - intros ty name u now id _. split; [apply generated_cell_window|].
      destruct ty; [exists 320%positive|exists 360%positive];
        split; try lia; reflexivity.
    - intros c s [Hw _]. apply tick_cell_voltage_grid. exact Hw.
    - apply Forall_trivial. }
  unfold every_cell in *. eapply Forall_impl; [|exact H].
  intros c [_ Hg]. split; [exact Hg|].
  apply grid_voltage_fixed. unfold voltage_on_grid in Hg.
  destruct (cell_type c);
    [apply (on_grid_weaken 280 360)|apply (on_grid_weaken 320 400)];
    try lia; exact Hg.
Qed.

(** X13.  When the draws made at cell creation honour
    [random.uniform(25, 40)], every stored temperature is the int [20], the
    int [60] (what the clamp leaves when it acts), or a float that is a
    whole number of tenths between 20.0 and 60.0; rounding it to one decimal
    again gives it back. *)
Theorem stored_temperature_one_decimal (evs : list Event) :
  Forall creation_draw_ok evs ->
  every_cell
    (fun c => temperature_on_grid c
              /\ PyNum.round (temperature c) 1 = temperature c)
    (run_events evs).
Proof.
  intros Hg.
  assert (every_cell temperature_on_grid (run_events evs)) as H.
  { apply (run_events_every_cell _ creation_draw_ok); [| |exact Hg].
    - intros ty name u now id Hu. unfold temperature_on_grid.
      cbn [generate_cell_data temperature].
      apply (on_grid_weaken 250 400); try lia.
      apply round_creation_grid. exact Hu.
    - intros c s _. apply tick_cell_temperature_grid. }
  unfold every_cell in *. eapply Forall_impl; [|exact H].
  intros c Hc. split; [exact Hc|].
  unfold temperature_on_grid in Hc.
  destruct (temperature c) as [z|x]; [reflexivity|].
  cbn [PyNum.round]. f_equal. apply grid_temperature_fixed. exact Hc.
Qed.

Lemma stored_temperature_one_decimal_witness :
  every_cell
    (fun c => temperature_on_grid c
              /\ PyNum.round (temperature c) 1 = temperature c)
    (run_events
       [AddCell LFP "a" 25.04 0; RefreshData (fun _ => (-2)%float);
        RefreshData (fun _ => (-2)%float); RefreshData (fun _ => (-2)%float)]).
Proof.
  apply stored_temperature_one_decimal. repeat constructor.
Defined.

End StoredValues.


(** ** Tasks are recorded, never applied *)

Section TasksApart.
Import PyDict Random App Props Views Traces.
Import PyNum (num, NInt, NFloat).

Lemma task_event_keeps_cells st ev :
  is_task_event ev = true ->
  cells_data (step st ev) = cells_data st
  /\ simulation_running (step st ev) = simulation_running st.
Proof.
  intros Hev.
  destruct ev as [ty name u now|id|name form now|id| | |s|s];
    try discriminate; cbn [step].
  - destruct (page_needs_cells_cases st
                (fun st => snd (add_task_form name form now st)))
      as [->|[_ ->]]; [split; reflexivity|].
    unfold add_task_form. destruct (mem _ (tasks_data st)); split; reflexivity.
  - destruct (page_needs_cells_cases st (remove_task id))
      as [->|[_ ->]]; [split; reflexivity|].
    unfold remove_task. destruct (mem _ (tasks_data st)); split; reflexivity.
Qed.

(** The cells and the running flag after an event depend on the cells and
    the running flag before it, not on the tasks. *)
Lemma step_cells_ignore_tasks st1 st2 ev :
  cells_data st1 = cells_data st2 ->
  simulation_running st1 = simulation_running st2 ->
  cells_data (step st1 ev) = cells_data (step st2 ev)
  /\ simulation_running (step st1 ev) = simulation_running (step st2 ev).
Proof.
  intros Hc Hr.
  destruct (is_task_event ev) eqn:Hev.
  - destruct (task_event_keeps_cells st1 ev Hev) as [-> ->].
    destruct (task_event_keeps_cells st2 ev Hev) as [-> ->].
    split; assumption.
  - destruct ev as [ty name u now|id|name form now|id| | |s|s];
      try discriminate; cbn [step].
    + unfold add_cell_form. rewrite Hc.
      destruct (mem _ (cells_data st2)); cbn [negb snd];
        [split; assumption|].
      cbn [cells_data simulation_running with_cells]. rewrite ?Hc.
      split; [reflexivity|exact Hr].
    + unfold remove_cell. rewrite Hc.
      destruct (mem id (cells_data st2)); [|split; assumption].
      cbn [cells_data simulation_running with_cells]. rewrite ?Hc.
      split; [reflexivity|exact Hr].
    + unfold page_needs_cells. rewrite Hc.
      destruct (cells_data st2) eqn:E; [split; [congruence|exact Hr]|].
      cbn. split; [congruence|reflexivity].
    + unfold page_needs_cells. rewrite Hc.
      destruct (cells_data st2) eqn:E; [split; [congruence|exact Hr]|].
      cbn. split; [congruence|reflexivity].
    + unfold page_needs_cells. rewrite Hc.
      destruct (cells_data st2) eqn:E; [split; [congruence|exact Hr]|].
      rewrite Hr. destruct (simulation_running st2) eqn:E2;
        [|split; [congruence|congruence]].
      rewrite !simulate_cells.
      rewrite (proj1 (proj2 (simulate_rest st1 s))).
      rewrite (proj1 (proj2 (simulate_rest st2 s))).
      split; congruence.
    + rewrite Hc. destruct (cells_data st2) eqn:E; [split; congruence|].
      rewrite !simulate_cells.
      rewrite (proj1 (proj2 (simulate_rest st1 s))).
      rewrite (proj1 (proj2 (simulate_rest st2 s))).
      split; congruence.
Qed.

Lemma fold_step_ignore_tasks evs :
  forall st1 st2,
    cells_data st1 = cells_data st2 ->
    simulation_running st1 = simulation_running st2 ->
    cells_data (fold_left step evs st1)
    = cells_data
        (fold_left step (filter (fun ev => negb (is_task_event ev)) evs) st2)
    /\ simulation_running (fold_left step evs st1)
       = simulation_running
           (fold_left step (filter (fun ev => negb (is_task_event ev)) evs) st2).
Proof.
  induction evs as [|ev evs IH]; intros st1 st2 Hc Hr; cbn [fold_left filter].
  - split; assumption.
  - destruct (is_task_event ev) eqn:Hev; cbn [negb fold_left].
    + destruct (task_event_keeps_cells st1 ev Hev) as [Hc1 Hr1].
      apply IH; congruence.
    + destruct (step_cells_ignore_tasks st1 st2 ev Hc Hr) as [Hc1 Hr1].
      apply IH; assumption.
Qed.

(** X14.  Tasks never reach the cells: the cell registry and the running
    flag after a sequence of events are the ones the same sequence gives
    with every task creation and task removal left out. *)
Theorem tasks_never_reach_cells (evs : list Event) :
  cells_data (run_events evs)
  = cells_data (run_events (filter (fun ev => negb (is_task_event ev)) evs))
  /\ simulation_running (run_events evs)
     = simulation_running
         (run_events (filter (fun ev => negb (is_task_event ev)) evs)).
Proof.
  unfold run_events. apply fold_step_ignore_tasks; reflexivity.
Qed.

End TasksApart.

(** ** Default keys *)

Section DefaultKeys.
Import PyDict Random App Props Views Traces.
Import PyNum (num, NInt, NFloat).
#[local] Open Scope string_scope.

Lemma to_uint_nonnil n : Nat.to_uint n <> Decimal.Nil.
Proof.
  rewrite <- (DecimalNat.Unsigned.of_to n) at 1.
  rewrite DecimalNat.Unsigned.to_of. apply DecimalFacts.unorm_nonnil.
Qed.

Lemma of_nat_eq n :
  PyStr.of_nat n = NilEmpty.string_of_uint (Nat.to_uint n).
Proof.
  unfold PyStr.of_nat, NilZero.string_of_uint.
  pose proof (to_uint_nonnil n) as H.
  destruct (Nat.to_uint n); [contradiction|reflexivity..].
Qed.

(** [str] is injective on the counters. *)
Lemma of_nat_inj a b : PyStr.of_nat a = PyStr.of_nat b -> a = b.
Proof.
  rewrite !of_nat_eq. intros H.
  apply (f_equal NilEmpty.uint_of_string) in H.
  rewrite !NilEmpty.usu in H. injection H as H.
  apply DecimalNat.Unsigned.to_uint_inj. exact H.
Qed.

Lemma of_nat_digits n : all_digits (PyStr.of_nat n) = true.
Proof.
  rewrite of_nat_eq. induction (Nat.to_uint n); cbn; auto.
Qed.

(** Two digit strings followed by an underscore agree when the whole
    strings do. *)
Lemma digits_then_underscore a b x y :
  all_digits a = true -> all_digits b = true ->
  a ++ String "_" x = b ++ String "_" y -> a = b.
Proof.
  revert b. induction a as [|c a IH]; intros [|c' b] Ha Hb H; cbn in *.
  - reflexivity.
  - injection H as <- _. discriminate.
  - injection H as -> _. discriminate.
  - injection H as <- H. apply andb_prop in Ha, Hb.
    f_equal. apply IH; tauto.
Qed.

Lemma default_cell_id_fresh cells ty :
  counted_cell_keys cells -> mem (default_cell_id cells ty) cells = false.
Proof.
  intros Hk. destruct (mem (default_cell_id cells ty) cells) eqn:E;
    [|reflexivity].
  apply mem_In in E. destruct (Hk _ E) as (i & ty' & Hi & Heq).
  unfold default_cell_id in Heq. cbn [String.append] in Heq.
  injection Heq as Heq.
  apply digits_then_underscore in Heq; try apply of_nat_digits.
  apply of_nat_inj in Heq. lia.
Qed.

Lemma default_task_id_fresh tasks :
  counted_task_keys tasks -> mem (default_task_id tasks) tasks = false.
Proof.
  intros Hk. destruct (mem (default_task_id tasks) tasks) eqn:E;
    [|reflexivity].
  apply mem_In in E. destruct (Hk _ E) as (i & Hi & Heq).
  unfold default_task_id in Heq. cbn [String.append] in Heq.
  injection Heq as Heq. apply of_nat_inj in Heq. lia.
Qed.

Lemma length_keys {V : Type} (d : dict V) : List.length (keys d) = List.length d.
Proof.
  apply length_map.
Qed.

Lemma step_counted_keys st ev :
  default_named ev = true ->
  counted_cell_keys (cells_data st) /\ counted_task_keys (tasks_data st) ->
  counted_cell_keys (cells_data (step st ev))
  /\ counted_task_keys (tasks_data (step st ev)).
Proof.
  intros Hev [Hc Ht]. split.
  - destruct (step_cells st ev)
      as [->|[(ty & name & u & now & -> & Hnew & ->)
             |[(id & -> & _ & _)|(s & _ & ->)]]].
    + exact Hc.
    + cbn in Hev. unfold cell_key in *.
      destruct (PyStr.truthy name); [discriminate|].
      rewrite (set_new _ _ _ Hnew). intros k Hin.
      unfold keys in Hin. rewrite map_app in Hin. rewrite length_app.
      cbn [List.length map fst] in *.
      apply in_app_or in Hin. destruct Hin as [Hin|[<-|[]]].
      * destruct (Hc k Hin) as (i & ty' & Hi & ->).
        exists i, ty'. split; [lia|reflexivity].
      * exists (List.length (cells_data st) + 1)%nat, ty.
        split; [lia|reflexivity].
    + discriminate.
    + intros k Hin. rewrite (proj1 (tick_items_frame _ _)) in Hin.
      destruct (Hc k Hin) as (i & ty' & Hi & ->).
      exists i, ty'. split; [|reflexivity].
      rewrite <- length_keys, (proj1 (tick_items_frame _ _)), length_keys.
      exact Hi.
  - destruct (step_tasks st ev)
      as [->|[(name & form & now & -> & _ & Hnew & ->)|(id & -> & _)]].
    + exact Ht.
    + cbn in Hev. unfold task_key in *.
      destruct (PyStr.truthy name); [discriminate|].
      rewrite (set_new _ _ _ Hnew). intros k Hin.
      unfold keys in Hin. rewrite map_app in Hin. rewrite length_app.
      cbn [List.length map fst] in *.
      apply in_app_or in Hin. destruct Hin as [Hin|[<-|[]]].
      * destruct (Ht k Hin) as (i & Hi & ->).
        exists i. split; [lia|reflexivity].
      * exists (List.length (tasks_data st) + 1)%nat.
        split; [lia|reflexivity].
    + discriminate.
Qed.

Lemma run_events_counted_keys evs :
  forallb default_named evs = true ->
  counted_cell_keys (cells_data (run_events evs))
  /\ counted_task_keys (tasks_data (run_events evs)).
Proof.
  unfold run_events.
  assert (counted_cell_keys (cells_data initial_state)
          /\ counted_task_keys (tasks_data initial_state)) as H0
    by (split; intros k []).
  revert H0. generalize initial_state.
  induction evs as [|ev evs IH]; intros st H0 Hg; cbn [fold_left];
    [exact H0|].
  cbn [forallb] in Hg. apply andb_prop in Hg. destruct Hg as [Hev Hg].
  apply IH; [|exact Hg]. apply step_counted_keys; assumption.
Qed.

(** X15.  Default keys are fresh as long as nothing is removed and no
    name is typed: after any sequence of default-named creations, starts,
    stops and passes, a creation with no name is accepted, for cells and
    for tasks alike.  (C10 shows that one removal is enough to lose
    this.) *)
Theorem default_names_stay_fresh (evs : list Event) :
  forallb default_named evs = true ->
  (forall ty u now,
      fst (add_cell_form ty "" u now (run_events evs))
      = Added (default_cell_id (cells_data (run_events evs)) ty))
  /\ (forall form now,
        fst (add_task_form "" form now (run_events evs))
        = Added (default_task_id (tasks_data (run_events evs)))).
Proof.
  intros Hg. destruct (run_events_counted_keys evs Hg) as [Hc Ht]. split.
  - intros ty u now. unfold add_cell_form, cell_key. cbn [PyStr.truthy].
    rewrite (default_cell_id_fresh _ ty Hc). reflexivity.
  - intros form now. unfold add_task_form, task_key. cbn [PyStr.truthy].
    rewrite (default_task_id_fresh _ Ht). reflexivity.
Qed.

Lemma default_names_stay_fresh_witness :
  fst (add_cell_form NMC "" 33 9
         (run_events
            [AddCell LFP "" 30 0; AddCell NMC "" 31 1;
             AddTask "" (FormIDLE 60) 2; RefreshData (fun _ => 1%float)]))
  = Added "cell_3_nmc"
  /\ fst (add_task_form "" (FormIDLE 60) 9
            (run_events
               [AddCell LFP "" 30 0; AddCell NMC "" 31 1;
                AddTask "" (FormIDLE 60) 2; RefreshData (fun _ => 1%float)]))
     = Added "task_2".
Proof.
  pose proof (default_names_stay_fresh
                [AddCell LFP "" 30 0; AddCell NMC "" 31 1;
                 AddTask "" (FormIDLE 60) 2; RefreshData (fun _ => 1%float)]
                eq_refl) as [Hc Ht].
  split; [exact (Hc NMC 33%float 9)|exact (Ht (FormIDLE 60) 9)].
Defined.

End DefaultKeys.

(** ** A pass without noise *)

Section ZeroDraws.
Import PyDict Random App Props Views Traces.
Import PyNum (num, NInt, NFloat).

Lemma range_holds_spec f dlo count d :
  range_holds f dlo count = true ->
  Zpos dlo <= Zpos d <= Zpos dlo + Z.of_nat count ->
  f d = true.
Proof.
  unfold range_holds. intros H Hd. apply andb_prop in H. destruct H as [H H0].
  destruct (Pos.eq_dec d dlo) as [->|Hne]; [exact H0|].
  rewrite forallb_forall in H.
  specialize (H (Pos.to_nat (d - dlo))).
  assert (Zpos dlo < Zpos d) by lia.
  rewrite Pos2Nat.id in H.
  replace (dlo + (d - dlo))%positive with d in H by lia.
  apply H. apply in_seq. lia.
Qed.

(** What a cell in a reachable state satisfies, all at once. *)
Lemma reachable_cells (evs : list Event) :
  Forall creation_draw_ok evs ->
  every_cell
    (fun c => (has_window c /\ voltage_on_grid c)
              /\ (current c = 0%float /\ capacity_consistent c)
              /\ temperature_on_grid c)
    (run_events evs).
Proof.
  intros Hg. apply (run_events_every_cell _ creation_draw_ok); [| |exact Hg].
  - intros ty name u now id Hu. split; [|split].
    + split; [apply generated_cell_window|].
      destruct ty; [exists 320%positive|exists 360%positive];
        split; try lia; reflexivity.
    + apply generated_cell_capacity.
    + unfold temperature_on_grid. cbn [generate_cell_data temperature].
      apply (on_grid_weaken 250 400); try lia.
      apply round_creation_grid. exact Hu.
  - intros c s ([Hw Hv] & [Hc Hq] & Ht). split; [|split].
    + apply tick_cell_voltage_grid. exact Hw.
    + apply tick_cell_capacity; assumption.
    + apply tick_cell_temperature_grid.
Qed.

Lemma zero_draw_cell c (s : draws) :
  s 0%nat = 0%float -> s 1%nat = 0%float ->
  (has_window c /\ voltage_on_grid c)
  /\ (current c = 0%float /\ capacity_consistent c)
  /\ temperature_on_grid c ->
  voltage (fst (tick_cell c s)) = voltage c
  /\ capacity (fst (tick_cell c s)) = capacity c
  /\ PyNum.to_float (temperature (fst (tick_cell c s)))
     = PyNum.to_float (temperature c).
Proof.
  intros H0 H1 ([Hw Hv] & [Hc [_ Hq]] & Ht).
  destruct (tick_cell_capacity c s Hw Hc) as [Hc' [_ Hq']].
  destruct (tick_cell_fields c s) as (Ev & Et & _).
  assert (voltage (fst (tick_cell c s)) = voltage c) as Hvolt.
  { rewrite Ev, H0. apply Prim2SF_inj, sf_same_eq.
    unfold voltage_on_grid in Hv. unfold has_window, window in Hw.
    destruct (cell_type c); injection Hw as -> ->;
      destruct Hv as (d & Hd & ->).
    - apply (range_holds_spec (zero_draw_keeps_voltage 2.8 3.6) 280 80 d);
        [vm_compute; reflexivity|lia].
    - apply (range_holds_spec (zero_draw_keeps_voltage 3.2 4.0) 320 80 d);
        [vm_compute; reflexivity|lia]. }
  split; [exact Hvolt|]. split; [congruence|].
  rewrite Et, H1. apply Prim2SF_inj, sf_same_eq.
  unfold temperature_on_grid in Ht.
  destruct (temperature c) as [z|x].
  - destruct Ht as [-> | ->]; vm_compute; reflexivity.
  - destruct Ht as (d & Hd & ->).
    apply (range_holds_spec
             (fun d => zero_draw_keeps_temperature
                         (NFloat (PyFloat.of_decimal false d 1))) 200 400 d);
      [vm_compute; reflexivity|lia].
Qed.

Lemma zero_pass_items items :
  Forall
    (fun c => (has_window c /\ voltage_on_grid c)
              /\ (current c = 0%float /\ capacity_consistent c)
              /\ temperature_on_grid c)
    (values items) ->
  Forall2
    (fun c c' => voltage c' = voltage c /\ capacity c' = capacity c
                 /\ PyNum.to_float (temperature c')
                    = PyNum.to_float (temperature c))
    (values items)
    (values (fst (tick_items items (fun _ => 0%float)))).
Proof.
  induction items as [|[k c] items IH]; intros H.
  - constructor.
  - rewrite tick_items_cons. inversion H as [|? ? Hc Hrest]; subst.
    constructor.
    + apply zero_draw_cell; [reflexivity|reflexivity|exact Hc].
    + apply IH. exact Hrest.
Qed.

(** X16.  Without noise nothing drifts: in any state the events can reach
    (the creation draws honouring [random.uniform(25, 40)]), a pass whose
    draws are all [0.0] stores every cell's voltage and capacity again as
    they were, and a temperature equal in value to the old one (an int [20]
    or [60] may stand where the float [20.0] or [60.0] was). *)
Theorem zero_draws_change_nothing (evs : list Event) :
  Forall creation_draw_ok evs ->
  Forall2
    (fun c c' => voltage c' = voltage c /\ capacity c' = capacity c
                 /\ PyNum.to_float (temperature c')
                    = PyNum.to_float (temperature c))
    (values (cells_data (run_events evs)))
    (values
       (cells_data
          (run (simulate_real_time_data (run_events evs)) (fun _ => 0%float)))).
Proof.
  intros Hg. rewrite simulate_cells. apply zero_pass_items.
  apply reachable_cells. exact Hg.
Qed.

Lemma zero_draws_change_nothing_witness :
  Forall2
    (fun c c' => voltage c' = voltage c /\ capacity c' = capacity c
                 /\ PyNum.to_float (temperature c')
                    = PyNum.to_float (temperature c))
    (values
       (cells_data
          (run_events [AddCell LFP "a" 39.96 0; RefreshData (fun _ => 2%float)])))
    (values
       (cells_data
          (run (simulate_real_time_data
                  (run_events
                     [AddCell LFP "a" 39.96 0; RefreshData (fun _ => 2%float)]))
             (fun _ => 0%float)))).
Proof.
  apply zero_draws_change_nothing. repeat constructor.
Defined.

End ZeroDraws.
